(** * Pharmacy Management API: a shallow embedding of [main.py] and [schemas.py]

    The service is a FastAPI application over a document store.  The
    development follows the layout of the repository:

    - [Py]       the Python values the handlers build and return (dicts,
                 lists, strings, numbers), exceptions, truthiness, slicing;
    - [Regex]    the fragment of the store's pattern language the claims
                 need, with the rest left to an interface;
    - [Schemas]  [schemas.py]: the four record shapes and their validation;
    - [Database] [database.py], which is not part of the sources at hand;
    - [Main]     [main.py]: the identifier helper, the diagnostics endpoint
                 and the eight collection routes;
    - the theorems.

    Modelling conventions.  A Python [str] is a [string] (a sequence of
    8-bit characters, case folding is that of the ASCII letters); a Python
    [int] is a [Z]; a Python [float] is an exact rational [Q] (only order
    comparisons with the constants 0 and 100 are ever made on floats, NaN and
    the infinities are left out); a Python [dict] is an association list in
    insertion order with unique keys; [Optional[T]] is [option T]. *)

From Stdlib Require Import ZArith QArith Ascii String List.
From stdpp Require Import base strings gmap list pretty.

Set Warnings "-register-all".

(* ===================================================================== *)
(** * Python values *)
(* ===================================================================== *)

Module Py.

Inductive value : Type :=
| VNone
| VBool (b : bool)
| VInt (z : Z)
| VFloat (q : Q)
| VStr (s : string)
| VList (l : list value)
| VDict (d : list (string * value)).

Abbreviation dict := (list (string * value)).

(** [d.get(k)] *)
Fixpoint dict_get (k : string) (d : dict) : option value :=
  match d with
  | [] => None
  | (k', v) :: d' => if String.eqb k' k then Some v else dict_get k d'
  end.

(** [d[k] = v]: the value is replaced in place when the key exists, and the
    pair is appended otherwise. *)
Fixpoint dict_set (k : string) (v : value) (d : dict) : dict :=
  match d with
  | [] => [(k, v)]
  | (k', v') :: d' =>
      if String.eqb k' k then (k, v) :: d' else (k', v') :: dict_set k v d'
  end.

(** [d.update(e)] *)
Definition dict_update (d e : dict) : dict :=
  foldl (λ acc kv, dict_set kv.1 kv.2 acc) d e.

(** [k in d] *)
Definition dict_mem (k : string) (d : dict) : bool :=
  match dict_get k d with Some _ => true | None => false end.

(** Exceptions.  [HTTPException] is FastAPI's; [Exception] stands for every
    other exception class, carrying what [str(e)] gives. *)
Inductive exn : Type :=
| HTTPException (status_code : Z) (detail : string)
| Exception (message : string).

(** [str(e)].  For an [HTTPException] this is [f"{status_code}: {detail}"]. *)
Definition exn_str (e : exn) : string :=
  match e with
  | HTTPException c d => pretty c +:+ ": " +:+ d
  | Exception m => m
  end.

(** A computation either returns or raises. *)
Inductive result (A : Type) : Type :=
| Return (a : A)
| Raise (e : exn).
Arguments Return {A} a.
Arguments Raise {A} e.

#[export] Instance result_ret : MRet result := λ A a, Return a.
#[export] Instance result_bind : MBind result := λ A B f m,
  match m with Return a => f a | Raise e => Raise e end.

(** [try: body except Exception as e: handler(e)] *)
Definition try_except {A} (body : result A) (handler : exn → result A) : result A :=
  match body with
  | Return a => Return a
  | Raise e => handler e
  end.

(** Truthiness of an [Optional[str]]: [None] and the empty string are false. *)
Definition truthy_str (s : option string) : bool :=
  match s with
  | Some (String _ _) => true
  | _ => false
  end.

(** Truthiness of an [Optional[bool]]: [None] and [False] are false. *)
Definition truthy_bool (b : option bool) : bool :=
  match b with
  | Some true => true
  | _ => false
  end.

(** [s[:n]] on a string *)
Fixpoint str_prefix (n : nat) (s : string) : string :=
  match n, s with
  | S n', String c s' => String c (str_prefix n' s')
  | _, _ => EmptyString
  end.

(** [l[:n]] on a list is [take n l]. *)

End Py.
Export Py.

(* ===================================================================== *)
(** * The store's pattern language *)
(* ===================================================================== *)

(** The handlers hand the caller's search term to the store as a
    [$regex] pattern with [$options: "i"].  The store's pattern language is
    Perl's.  The model covers the patterns made of ordinary characters and
    of the wildcard [.]; every other pattern, and every other option string,
    is left to [regex_compile], the engine's own compiler, which may also
    refuse a pattern. *)

Module Regex.

Inductive atom : Type :=
| Lit (c : ascii)
| Dot.

(** The characters with a special meaning outside a character class,
    together with the closing brackets. *)
Definition metachars : list ascii := list_ascii_of_string "\^$.[]|()?*+{}".

Definition is_meta (c : ascii) : bool :=
  existsb (Ascii.eqb c) metachars.

(** An ordinary character stands for itself. *)
Definition plain (c : ascii) : bool :=
  negb (is_meta c) && negb (Ascii.eqb c zero).

Fixpoint parse (p : list ascii) : option (list atom) :=
  match p with
  | [] => Some []
  | c :: p' =>
      if Ascii.eqb c "." then cons Dot <$> parse p'
      else if plain c then cons (Lit c) <$> parse p'
      else None
  end.

(** ASCII case folding. *)
Definition lower (c : ascii) : ascii :=
  let n := nat_of_ascii c in
  if (65 <=? n)%nat && (n <=? 90)%nat then ascii_of_nat (n + 32) else c.

(** With option [i] a literal matches either case; without option [s] the
    wildcard matches every character but the line feed. *)
Definition atom_match (a : atom) (c : ascii) : bool :=
  match a with
  | Lit x => Ascii.eqb (lower x) (lower c)
  | Dot => negb (Ascii.eqb c "010")
  end.

(** The atoms match a prefix of the subject. *)
Fixpoint match_here (p : list atom) (s : list ascii) : bool :=
  match p, s with
  | [], _ => true
  | a :: p', c :: s' => atom_match a c && match_here p' s'
  | _ :: _, [] => false
  end.

(** Unanchored search: the atoms match at some position of the subject. *)
Fixpoint search (p : list atom) (s : list ascii) : bool :=
  match_here p s ||
  match s with
  | [] => false
  | _ :: s' => search p s'
  end.

(** The engine, for what the fragment above does not cover: a pattern and an
    option string compile to a predicate on subjects, or are refused. *)
Class Engine := {
  regex_compile : string → string → option (string → bool)
}.

(** [{"$regex": pattern, "$options": options}] *)
Definition compile `{Engine} (pattern options : string) : option (string → bool) :=
  match parse (list_ascii_of_string pattern) with
  | Some atoms =>
      if String.eqb options "i"
      then Some (λ subject, search atoms (list_ascii_of_string subject))
      else regex_compile pattern options
  | None => regex_compile pattern options
  end.

(** The words of the specification: [q] occurs in [s] as a substring, up to
    the case of the letters. *)
Definition ci_substring (q s : string) : Prop :=
  ∃ pre post : list ascii,
    lower <$> list_ascii_of_string s
    = pre ++ (lower <$> list_ascii_of_string q) ++ post.

End Regex.

(* ===================================================================== *)
(** * schemas.py *)
(* ===================================================================== *)

Module Schemas.

(** Validating a request body against a model either yields the model
    instance or fails; a failure names the first offending field, in the
    order of the class (the validator itself reports all of them; whether a
    body is accepted does not depend on that). *)
Inductive validated (A : Type) : Type :=
| Valid (a : A)
| Invalid (loc : string) (msg : string).
Arguments Valid {A} a.
Arguments Invalid {A} loc msg.

#[export] Instance validated_ret : MRet validated := λ A a, Valid a.
#[export] Instance validated_bind : MBind validated := λ A B f m,
  match m with Valid a => f a | Invalid l e => Invalid l e end.

(** What the validation library does beyond the class declarations: in its
    default (lax) mode it also converts some values of another type (numeric
    strings, booleans, integral floats, ISO dates) and it renders a class as
    a JSON schema.  A conversion returns [None] when the library refuses the
    value.  [lax_int], [lax_float] and [lax_bool] are only consulted on
    values that are not already of the expected type. *)
Class Pydantic := {
  lax_int : value → option Z;
  lax_float : value → option Q;
  lax_bool : value → option bool;
  date_type : value → option string;
  model_json_schema : string → value
}.

Section Fields.
Context `{Pydantic}.

Definition str_type (v : value) : option string :=
  match v with VStr s => Some s | _ => None end.

Definition int_type (v : value) : option Z :=
  match v with VInt z => Some z | _ => lax_int v end.

Definition float_type (v : value) : option Q :=
  match v with
  | VInt z => Some (inject_Z z)
  | VFloat q => Some q
  | _ => lax_float v
  end.

Definition bool_type (v : value) : option bool :=
  match v with VBool b => Some b | _ => lax_bool v end.

(** [Optional[T]] *)
Definition Optional {A} (type : value → option A) (v : value) : option (option A) :=
  match v with VNone => Some None | _ => Some <$> type v end.

(** [Literal[c1, ..., cn]] over strings *)
Definition Literal (choices : list string) (v : value) : option string :=
  match v with
  | VStr s => if existsb (String.eqb s) choices then Some s else None
  | _ => None
  end.

(** [List[T]] *)
Definition List_type {A} (type : value → option A) (v : value) : option (list A) :=
  match v with VList l => mapM type l | _ => None end.

(** Constraints [ge=] and [le=]. *)
Definition ge_int (bound x : Z) : bool := (bound <=? x)%Z.
Definition ge_float (bound x : Q) : bool := Qle_bool bound x.
Definition le_float (bound x : Q) : bool := Qle_bool x bound.
Definition unconstrained {A} (_ : A) : bool := true.

(** A constraint on [Optional[T]] bears on the value when there is one. *)
Definition on_some {A} (c : A → bool) (o : option A) : bool :=
  match o with Some a => c a | None => true end.

(** One field of a model: [name: type = Field(default, constraint)].  With
    [default = None] the field is required ([Field(...)]).  A default is not
    itself validated. *)
Definition field {A} (body : dict) (name : string) (type : value → option A)
    (default : option A) (constraint : A → bool) : validated A :=
  match dict_get name body with
  | None =>
      match default with
      | Some a => Valid a
      | None => Invalid name "Field required"
      end
  | Some v =>
      match type v with
      | Some a => if constraint a then Valid a else Invalid name "Input out of range"
      | None => Invalid name "Input should be a valid value"
      end
  end.

(** The body of a request is validated as a model: it has to be an object. *)
Definition model {A} (fields : dict → validated A) (v : value) : validated A :=
  match v with
  | VDict body => fields body
  | _ => Invalid "body" "Input should be a valid dictionary"
  end.

(** A nested model used as the type of a field. *)
Definition model_type {A} (validate : value → validated A) (v : value) : option A :=
  match validate v with Valid a => Some a | Invalid _ _ => None end.

Definition dump_option {A} (f : A → value) (o : option A) : value :=
  match o with Some a => f a | None => VNone end.

End Fields.

Module Medicine.
Record t : Type := mk {
  name : string;
  generic_name : option string;
  category : option string;
  manufacturer : option string;
  sku : option string;
  batch_number : option string;
  expiry_date : option string;
  price : Q;
  cost_price : option Q;
  stock : Z;
  reorder_level : Z;
  unit : string;
  taxable : bool;
  tax_rate : Q;
  notes : option string
}.

Definition units : list string :=
  ["tablet"; "capsule"; "bottle"; "syrup"; "ml"; "mg"; "g"; "pack"; "unit"].

Definition fields `{Pydantic} (b : dict) : validated t :=
  name ← field b "name" str_type None unconstrained;
  generic_name ← field b "generic_name" (Optional str_type) (Some None) unconstrained;
  category ← field b "category" (Optional str_type) (Some None) unconstrained;
  manufacturer ← field b "manufacturer" (Optional str_type) (Some None) unconstrained;
  sku ← field b "sku" (Optional str_type) (Some None) unconstrained;
  batch_number ← field b "batch_number" (Optional str_type) (Some None) unconstrained;
  expiry_date ← field b "expiry_date" (Optional date_type) (Some None) unconstrained;
  price ← field b "price" float_type None (ge_float 0);
  cost_price ← field b "cost_price" (Optional float_type) (Some None) (on_some (ge_float 0));
  stock ← field b "stock" int_type (Some 0%Z) (ge_int 0);
  reorder_level ← field b "reorder_level" int_type (Some 10%Z) (ge_int 0);
  unit ← field b "unit" (Literal units) (Some "unit") unconstrained;
  taxable ← field b "taxable" bool_type (Some true) unconstrained;
  tax_rate ← field b "tax_rate" float_type (Some 0%Q)
               (λ x, ge_float 0 x && le_float 100 x);
  notes ← field b "notes" (Optional str_type) (Some None) unconstrained;
  mret (mk name generic_name category manufacturer sku batch_number
           expiry_date price cost_price stock reorder_level unit taxable
           tax_rate notes).

Definition validate `{Pydantic} : value → validated t := model fields.

(** [payload.model_dump()] *)
Definition model_dump (m : t) : dict :=
  [ ("name", VStr (name m));
    ("generic_name", dump_option VStr (generic_name m));
    ("category", dump_option VStr (category m));
    ("manufacturer", dump_option VStr (manufacturer m));
    ("sku", dump_option VStr (sku m));
    ("batch_number", dump_option VStr (batch_number m));
    ("expiry_date", dump_option VStr (expiry_date m));
    ("price", VFloat (price m));
    ("cost_price", dump_option VFloat (cost_price m));
    ("stock", VInt (stock m));
    ("reorder_level", VInt (reorder_level m));
    ("unit", VStr (unit m));
    ("taxable", VBool (taxable m));
    ("tax_rate", VFloat (tax_rate m));
    ("notes", dump_option VStr (notes m)) ].
End Medicine.

Module PrescriptionItem.
Record t : Type := mk {
  medicine_id : string;
  name : option string;
  quantity : Z;
  unit_price : Q
}.

Definition fields `{Pydantic} (b : dict) : validated t :=
  medicine_id ← field b "medicine_id" str_type None unconstrained;
  name ← field b "name" (Optional str_type) (Some None) unconstrained;
  quantity ← field b "quantity" int_type None (ge_int 1);
  unit_price ← field b "unit_price" float_type None (ge_float 0);
  mret (mk medicine_id name quantity unit_price).

Definition validate `{Pydantic} : value → validated t := model fields.

Definition model_dump (i : t) : dict :=
  [ ("medicine_id", VStr (medicine_id i));
    ("name", dump_option VStr (name i));
    ("quantity", VInt (quantity i));
    ("unit_price", VFloat (unit_price i)) ].
End PrescriptionItem.

Module Prescription.
Record t : Type := mk {
  number : option string;
  patient_name : string;
  patient_phone : option string;
  doctor_name : option string;
  items : list PrescriptionItem.t;
  subtotal : Q;
  tax : Q;
  total : Q;
  status : string;
  payment_method : option string
}.

Definition statuses : list string := ["pending"; "dispensed"; "cancelled"].
Definition payment_methods : list string := ["cash"; "card"; "upi"; "insurance"].

Definition fields `{Pydantic} (b : dict) : validated t :=
  number ← field b "number" (Optional str_type) (Some None) unconstrained;
  patient_name ← field b "patient_name" str_type None unconstrained;
  patient_phone ← field b "patient_phone" (Optional str_type) (Some None) unconstrained;
  doctor_name ← field b "doctor_name" (Optional str_type) (Some None) unconstrained;
  items ← field b "items" (List_type (model_type PrescriptionItem.validate))
            (Some []) unconstrained;
  subtotal ← field b "subtotal" float_type (Some 0%Q) (ge_float 0);
  tax ← field b "tax" float_type (Some 0%Q) (ge_float 0);
  total ← field b "total" float_type (Some 0%Q) (ge_float 0);
  status ← field b "status" (Literal statuses) (Some "pending") unconstrained;
  payment_method ← field b "payment_method" (Optional (Literal payment_methods))
                     (Some None) unconstrained;
  mret (mk number patient_name patient_phone doctor_name items subtotal tax
           total status payment_method).

Definition validate `{Pydantic} : value → validated t := model fields.

Definition model_dump (p : t) : dict :=
  [ ("number", dump_option VStr (number p));
    ("patient_name", VStr (patient_name p));
    ("patient_phone", dump_option VStr (patient_phone p));
    ("doctor_name", dump_option VStr (doctor_name p));
    ("items", VList ((λ i, VDict (PrescriptionItem.model_dump i)) <$> items p));
    ("subtotal", VFloat (subtotal p));
    ("tax", VFloat (tax p));
    ("total", VFloat (total p));
    ("status", VStr (status p));
    ("payment_method", dump_option VStr (payment_method p)) ].
End Prescription.

Module Staff.
Record t : Type := mk {
  name : string;
  email : string;
  role : string;
  phone : option string;
  is_active : bool
}.

Definition roles : list string := ["Admin"; "Pharmacist"; "Sales"; "Accountant"].

Definition fields `{Pydantic} (b : dict) : validated t :=
  name ← field b "name" str_type None unconstrained;
  email ← field b "email" str_type None unconstrained;
  role ← field b "role" (Literal roles) (Some "Sales") unconstrained;
  phone ← field b "phone" (Optional str_type) (Some None) unconstrained;
  is_active ← field b "is_active" bool_type (Some true) unconstrained;
  mret (mk name email role phone is_active).

Definition validate `{Pydantic} : value → validated t := model fields.

Definition model_dump (s : t) : dict :=
  [ ("name", VStr (name s));
    ("email", VStr (email s));
    ("role", VStr (role s));
    ("phone", dump_option VStr (phone s));
    ("is_active", VBool (is_active s)) ].
End Staff.

Module Supplier.
Record t : Type := mk {
  name : string;
  contact_name : option string;
  phone : option string;
  email : option string;
  address : option string;
  gst_number : option string
}.

Definition fields `{Pydantic} (b : dict) : validated t :=
  name ← field b "name" str_type None unconstrained;
  contact_name ← field b "contact_name" (Optional str_type) (Some None) unconstrained;
  phone ← field b "phone" (Optional str_type) (Some None) unconstrained;
  email ← field b "email" (Optional str_type) (Some None) unconstrained;
  address ← field b "address" (Optional str_type) (Some None) unconstrained;
  gst_number ← field b "gst_number" (Optional str_type) (Some None) unconstrained;
  mret (mk name contact_name phone email address gst_number).

Definition validate `{Pydantic} : value → validated t := model fields.

Definition model_dump (s : t) : dict :=
  [ ("name", VStr (name s));
    ("contact_name", dump_option VStr (contact_name s));
    ("phone", dump_option VStr (phone s));
    ("email", dump_option VStr (email s));
    ("address", dump_option VStr (address s));
    ("gst_number", dump_option VStr (gst_number s)) ].
End Supplier.

(** The schemas, for discovery by tools and clients. *)
Definition SCHEMA_REGISTRY `{Pydantic} : dict :=
  [ ("medicine", model_json_schema "Medicine");
    ("prescription", model_json_schema "Prescription");
    ("staff", model_json_schema "Staff");
    ("supplier", model_json_schema "Supplier") ].

End Schemas.

(* ===================================================================== *)
(** * database.py *)
(* ===================================================================== *)

(** [main.py] imports [db], [create_document] and [get_documents] from
    [database.py].  That file is not among the sources; its three names are
    modelled from section 4.2 of the specification.  The query language is
    the store's own; the model covers the operators the handlers emit. *)

Module Database.
Import Schemas.

(** The store orders values of different types among themselves; the model
    computes the order on numbers and leaves the rest to [bson_lte]. *)
Class Store := {
  store_regex :: Regex.Engine;
  bson_lte : option value → option value → bool
}.

(** The models of [schemas.py] share one interface, [BaseModel]. *)
Class BaseModel (A : Type) := {
  model_dump : A → dict
}.
#[export] Instance Medicine_model : BaseModel Medicine.t :=
  {| model_dump := Medicine.model_dump |}.
#[export] Instance Prescription_model : BaseModel Prescription.t :=
  {| model_dump := Prescription.model_dump |}.
#[export] Instance Staff_model : BaseModel Staff.t :=
  {| model_dump := Staff.model_dump |}.
#[export] Instance Supplier_model : BaseModel Supplier.t :=
  {| model_dump := Supplier.model_dump |}.

(** Modelled from the spec: the database handle behind [db].  "The database
    is the sole owner of record state": each named collection holds its
    documents in insertion order.  [failure] is set when the store is
    unreachable, and every operation then fails with that message.
    [next_id] feeds the generated identifiers.  A document keeps its
    identifier under ["_id"], here directly as the plain string a client
    sees. *)
Record database : Type := {
  failure : option string;
  next_id : nat;
  collections : gmap string (list dict)
}.

(** Modelled from the spec: [db] is the shared connection, "established once
    at process startup; if unavailable at startup, the accessor degrades to
    a not-available state", which is [None]. *)
Abbreviation db_state := (option database).

(** A handler runs against the shared connection and returns or raises. *)
Definition io (A : Type) : Type := db_state → result A * db_state.

#[export] Instance io_ret : MRet io := λ A a db, (Return a, db).
#[export] Instance io_bind : MBind io := λ A B f m db,
  match m db with
  | (Return a, db') => f a db'
  | (Raise e, db') => (Raise e, db')
  end.

Definition fresh_id (n : nat) : string := pretty n.

Definition documents (d : database) (collection_name : string) : list dict :=
  default [] (collections d !! collection_name).

(** [db.list_collection_names()] *)
Definition list_collection_names (d : database) : result (list string) :=
  match failure d with
  | Some msg => Raise (Exception msg)
  | None => Return (map_to_list (collections d)).*1
  end.

Section Query.
Context `{Store}.

Definition number (v : value) : option Q :=
  match v with
  | VInt z => Some (inject_Z z)
  | VFloat q => Some q
  | _ => None
  end.

(** An operand of an expression: ["$field"] reads the field of the document
    (which may be missing), anything else is a literal. *)
Definition operand (v : value) (doc : dict) : option value :=
  match v with
  | VStr (String "$" field) => dict_get field doc
  | _ => Some v
  end.

Definition lte (a b : option value) : bool :=
  match a ≫= number, b ≫= number with
  | Some x, Some y => Qle_bool x y
  | _, _ => bson_lte a b
  end.

(** [{"$expr": e}] with [e = {"$lte": [a, b]}] *)
Definition compile_expr (e : value) : result (dict → bool) :=
  match e with
  | VDict [("$lte", VList [a; b])] =>
      Return (λ doc, lte (operand a doc) (operand b doc))
  | _ => Raise (Exception "unsupported expression")
  end.

(** Equality of scalars: numbers by value, the other types by identity. *)
Definition scalar_eqb (a b : value) : bool :=
  match a, b with
  | VNone, VNone => true
  | VBool x, VBool y => Bool.eqb x y
  | VStr x, VStr y => String.eqb x y
  | (VInt _ | VFloat _), (VInt _ | VFloat _) =>
      match number a, number b with
      | Some x, Some y => Qeq_bool x y
      | _, _ => false
      end
  | _, _ => false
  end.

(** A condition holds of a field that is an array when it holds of one of
    its elements. *)
Definition on_field (p : value → bool) (missing : bool) (fv : option value) : bool :=
  match fv with
  | None => missing
  | Some (VList l) => existsb p l
  | Some v => p v
  end.

(** [{field: c}]: a pattern match when [c] is
    [{"$regex": p, "$options": o}], an equality when [c] is a scalar. *)
Definition compile_cond (c : value) : result (option value → bool) :=
  match c with
  | VDict [("$regex", VStr p); ("$options", VStr o)] =>
      match Regex.compile p o with
      | Some m =>
          Return (on_field (λ v, match v with VStr s => m s | _ => false end) false)
      | None => Raise (Exception "Regular expression is invalid")
      end
  | VDict _ | VList _ => Raise (Exception "unsupported condition")
  | VNone => Return (on_field (scalar_eqb VNone) true)
  | _ => Return (on_field (scalar_eqb c) false)
  end.

Definition is_operator (k : string) : bool :=
  match k with String "$" _ => true | _ => false end.

(** A filter is a dict whose entries all have to hold.  A filter the model
    does not cover raises; so does the store on a malformed one. *)
Fixpoint compile_query (v : value) : result (dict → bool) :=
  match v with
  | VDict d =>
      (fix clauses (d : dict) : result (dict → bool) :=
         match d with
         | [] => Return (λ _, true)
         | (k, c) :: d' =>
             p ← (if String.eqb k "$or" then
                    match c with
                    | VList (f :: fs) =>
                        p ← compile_query f;
                        ps ← (fix alternatives (fs : list value) : result (dict → bool) :=
                                match fs with
                                | [] => Return (λ _, false)
                                | f :: fs' =>
                                    p ← compile_query f;
                                    ps ← alternatives fs';
                                    Return (λ doc, p doc || ps doc)
                                end) fs;
                        Return (λ doc, p doc || ps doc)
                    | _ => Raise (Exception "$or must be a nonempty array")
                    end
                  else if String.eqb k "$expr" then compile_expr c
                  else if is_operator k then Raise (Exception "unsupported operator")
                  else (m ← compile_cond c; Return (λ doc, m (dict_get k doc))));
             ps ← clauses d';
             Return (λ doc : dict, p doc && ps doc)
         end) d
  | _ => Raise (Exception "filter must be a document")
  end.

(** "at most [limit] matching documents" *)
Definition at_most {A} (limit : option Z) (l : list A) : list A :=
  match limit with
  | Some n => take (Z.to_nat n) l
  | None => l
  end.

(** Modelled from the spec: [create_document(collection_name, payload)]
    "serializes the validated payload to a storable document, inserts it
    into the named collection, returns the newly generated identifier as a
    string.  Fails (propagates an error) if the underlying store is
    unreachable". *)
Definition create_document {A} `{BaseModel A}
    (collection_name : string) (payload : A) : io string :=
  λ db,
    match db with
    | None => (Raise (Exception "Database not available"), db)
    | Some d =>
        match failure d with
        | Some msg => (Raise (Exception msg), db)
        | None =>
            let new_id := fresh_id (next_id d) in
            let doc := ("_id", VStr new_id) :: model_dump payload in
            (Return new_id,
             Some {| failure := None;
                     next_id := S (next_id d);
                     collections :=
                       <[collection_name := documents d collection_name ++ [doc]]>
                         (collections d) |})
        end
    end.

(** Modelled from the spec: [get_documents(collection_name, filter, limit)]
    "executes a filtered read against the named collection, returns at most
    [limit] matching documents as a sequence of mappings, with a generated
    identifier field normalized to a plain string.  Ordering is the store's
    natural/insertion order.  An empty result set returns an empty sequence,
    not an error."  The specification gives no meaning to an absent limit;
    the model then returns every match. *)
Definition get_documents (collection_name : string) (filter : dict)
    (limit : option Z) : io (list dict) :=
  λ db,
    match db with
    | None => (Raise (Exception "Database not available"), db)
    | Some d =>
        match failure d with
        | Some msg => (Raise (Exception msg), db)
        | None =>
            (p ← compile_query (VDict filter);
             Return (at_most limit (List.filter p (documents d collection_name))),
             db)
        end
    end.

End Query.
End Database.

(* ===================================================================== *)
(** * main.py *)
(* ===================================================================== *)

Module Main.
Import Schemas Database.

(** The store's identifier library: [ObjectId(s)] builds a native
    identifier from a string or raises. *)
Class Bson := {
  ObjectId : Type;
  ObjectId_new : string → result ObjectId
}.

(** Helpers *)
Definition to_object_id `{Bson} (id_str : string) : result ObjectId :=
  try_except (ObjectId_new id_str)
    (λ _, Raise (HTTPException 400 "Invalid id format")).

Definition read_root : result value :=
  Return (VDict [("message", VStr "Pharmacy Backend Running")]).

Definition get_schema `{Pydantic} : result value :=
  Return (VDict SCHEMA_REGISTRY).

(** ** The diagnostics endpoint *)

(** [test_database] builds its [response] dict and then updates it in
    place, inside two nested [try] blocks.  A statement acts on [response]
    and may raise; what it wrote before raising stays written. *)
Definition stmt : Type := dict → option exn * dict.

Definition skip : stmt := λ response, (None, response).

(** [response[k] = rhs], where evaluating [rhs] may raise *)
Definition assign (k : string) (rhs : result value) : stmt := λ response,
  match rhs with
  | Return v => (None, dict_set k v response)
  | Raise e => (Some e, response)
  end.

Definition seq_stmt (s1 s2 : stmt) : stmt := λ response,
  match s1 response with
  | (None, response') => s2 response'
  | (Some e, response') => (Some e, response')
  end.

(** [try: body except Exception as e: handler] *)
Definition try_stmt (body : stmt) (handler : exn → stmt) : stmt := λ response,
  match body response with
  | (None, response') => (None, response')
  | (Some e, response') => handler e response'
  end.

(** [return response] at the end of the function body *)
Definition return_response (body : stmt) (response : dict) : result value :=
  match body response with
  | (None, response') => Return (VDict response')
  | (Some e, _) => Raise e
  end.

(** ["✅ Set" if os.getenv(name) else "❌ Not Set"] *)
Definition is_set (environ : gmap string string) (name : string) : value :=
  VStr (if truthy_str (environ !! name) then "✅ Set" else "❌ Not Set").

Definition test_database (environ : gmap string string) (db : db_state) : result value :=
  let response :=
    [ ("backend", VStr "✅ Running");
      ("database", VStr "❌ Not Available");
      ("database_url", is_set environ "DATABASE_URL");
      ("database_name", is_set environ "DATABASE_NAME");
      ("connection_status", VStr "Not Connected");
      ("collections", VList []) ] in
  return_response
    (try_stmt
       (match db with
        | Some db =>
            seq_stmt (assign "database" (Return (VStr "✅ Available")))
           (seq_stmt (assign "connection_status" (Return (VStr "Connected")))
                (try_stmt
                   (seq_stmt (assign "collections"
                           (names ← list_collection_names db;
                            Return (VList (VStr <$> take 10 names))))
                        (assign "database" (Return (VStr "✅ Connected & Working"))))
                   (λ e, assign "database"
                           (Return (VStr ("⚠️ Connected but Error: "
                                          +:+ str_prefix 80 (exn_str e)))))))
        | None => skip
        end)
       (λ e, assign "database"
               (Return (VStr ("❌ Error: " +:+ str_prefix 80 (exn_str e))))))
    response.

Section Routes.
Context `{Pydantic} `{Store}.

(** ** Medicines *)

Definition create_medicine (payload : Medicine.t) : io value :=
  new_id ← create_document "medicine" payload;
  mret (VDict [("id", VStr new_id)]).

Definition regex_i (q : string) : value :=
  VDict [("$regex", VStr q); ("$options", VStr "i")].

(** The filter [list_medicines] builds before it calls [get_documents]. *)
Definition list_medicines_filt (q : option string) (low_stock : option bool) : dict :=
  let filt := [] in
  let filt :=
    match q with
    | Some (String _ _ as q) =>
        [("$or", VList [ VDict [("name", regex_i q)];
                         VDict [("generic_name", regex_i q)];
                         VDict [("sku", regex_i q)] ])]
    | _ => filt
    end in
  let filt :=
    if truthy_bool low_stock
    then dict_update filt
           [("$expr", VDict [("$lte", VList [VStr "$stock"; VStr "$reorder_level"])])]
    else filt in
  filt.

Definition list_medicines (q : option string) (low_stock : option bool)
    (limit : option Z) : io (list dict) :=
  get_documents "medicine" (list_medicines_filt q low_stock) limit.

(** ** Prescriptions *)

Definition create_prescription (payload : Prescription.t) : io value :=
  new_id ← create_document "prescription" payload;
  mret (VDict [("id", VStr new_id)]).

Definition list_prescriptions (status : option string) (limit : option Z)
    : io (list dict) :=
  let filt :=
    match status with
    | Some (String _ _ as status) => [("status", VStr status)]
    | _ => []
    end in
  get_documents "prescription" filt limit.

(** ** Staff *)

Definition create_staff (payload : Staff.t) : io value :=
  new_id ← create_document "staff" payload;
  mret (VDict [("id", VStr new_id)]).

(** The filter [list_staff] builds before it calls [get_documents]. *)
Definition list_staff_filt (role : option string) (active : option bool) : dict :=
  let filt := [] in
  let filt :=
    match role with
    | Some (String _ _ as role) => dict_set "role" (VStr role) filt
    | _ => filt
    end in
  let filt :=
    match active with
    | Some active => dict_set "is_active" (VBool active) filt
    | None => filt
    end in
  filt.

Definition list_staff (role : option string) (active : option bool)
    (limit : option Z) : io (list dict) :=
  get_documents "staff" (list_staff_filt role active) limit.

(** ** Suppliers *)

Definition create_supplier (payload : Supplier.t) : io value :=
  new_id ← create_document "supplier" payload;
  mret (VDict [("id", VStr new_id)]).

Definition list_suppliers (q : option string) (limit : option Z) : io (list dict) :=
  let filt :=
    match q with
    | Some (String _ _ as q) =>
        [("$or", VList [ VDict [("name", regex_i q)];
                         VDict [("contact_name", regex_i q)] ])]
    | _ => []
    end in
  get_documents "supplier" filt limit.

(** ** The HTTP surface *)

(** A request that reached a route.  The body of a POST is the parsed JSON
    value.  The query parameters of a GET arrive typed; [None] is a
    parameter the caller left out. *)
Inductive request : Type :=
| GET_root
| GET_schema
| GET_test
| POST_medicines (body : value)
| GET_medicines (q : option string) (low_stock : option bool) (limit : option Z)
| POST_prescriptions (body : value)
| GET_prescriptions (status : option string) (limit : option Z)
| POST_staff (body : value)
| GET_staff (role : option string) (active : option bool) (limit : option Z)
| POST_suppliers (body : value)
| GET_suppliers (q : option string) (limit : option Z).

Inductive response : Type :=
| Response (status_code : Z) (content : value).

(** A parameter declared [name: Optional[T] = default] takes its default
    when the caller leaves it out. *)
Definition param {A} (given : option A) (default : option A) : option A :=
  match given with
  | Some a => Some a
  | None => default
  end.

(** What becomes of a request: its body is rejected by validation, or the
    handler runs and returns or raises. *)
Inductive outcome : Type :=
| Rejected (loc : string) (msg : string)
| Handled (r : result value).

(** The body of a POST is validated against the model of the handler's
    parameter; the handler is called with the instance, and not at all when
    validation fails. *)
Definition with_body {A} (validate : value → validated A) (body : value)
    (handler : A → io value) : db_state → outcome * db_state :=
  λ db,
    match validate body with
    | Valid payload =>
        let '(r, db') := handler payload db in (Handled r, db')
    | Invalid loc msg => (Rejected loc msg, db)
    end.

Definition call (handler : io value) : db_state → outcome * db_state :=
  λ db, let '(r, db') := handler db in (Handled r, db').

Definition documents_value (h : io (list dict)) : io value :=
  docs ← h; mret (VList (VDict <$> docs)).

(** The routes of [app], with the defaults of each handler's signature. *)
Definition route (environ : gmap string string) (r : request)
    : db_state → outcome * db_state :=
  match r with
  | GET_root => call (λ db, (read_root, db))
  | GET_schema => call (λ db, (get_schema, db))
  | GET_test => call (λ db, (test_database environ db, db))
  | POST_medicines body => with_body Medicine.validate body create_medicine
  | GET_medicines q low_stock limit =>
      call (documents_value
        (list_medicines (param q None) (param low_stock (Some false))
                        (param limit (Some 100%Z))))
  | POST_prescriptions body => with_body Prescription.validate body create_prescription
  | GET_prescriptions status limit =>
      call (documents_value
        (list_prescriptions (param status None) (param limit (Some 100%Z))))
  | POST_staff body => with_body Staff.validate body create_staff
  | GET_staff role active limit =>
      call (documents_value
        (list_staff (param role None) (param active None)
                    (param limit (Some 100%Z))))
  | POST_suppliers body => with_body Supplier.validate body create_supplier
  | GET_suppliers q limit =>
      call (documents_value
        (list_suppliers (param q None) (param limit (Some 100%Z))))
  end.

(** What the framework answers: the handler's value with status 200, 422
    for a body that fails validation, the status and detail of an
    [HTTPException], and 500 for any other exception. *)
Definition respond (o : outcome) : response :=
  match o with
  | Rejected loc msg =>
      Response 422 (VDict [("detail", VList [VDict [("loc", VStr loc); ("msg", VStr msg)]])])
  | Handled (Return v) => Response 200 v
  | Handled (Raise (HTTPException c d)) => Response c (VDict [("detail", VStr d)])
  | Handled (Raise (Exception _)) => Response 500 (VStr "Internal Server Error")
  end.

Definition app (environ : gmap string string) (r : request) (db : db_state)
    : response * db_state :=
  let '(o, db') := route environ r db in (respond o, db').

End Routes.
End Main.

(* ===================================================================== *)
(** * Vocabulary of the statements *)
(* ===================================================================== *)

Import Schemas Database Main.

(** The document [create_document] stores for a payload, given the
    identifier it generated. *)
Definition stored {A} `{BaseModel A} (im : string * A) : dict :=
  ("_id", VStr im.1) :: model_dump im.2.

(** The handler returned these documents. *)
Definition listing (docs : list dict) : outcome :=
  Handled (Return (VList (VDict <$> docs))).

(** The limit in force: the caller's, or 100. *)
Definition limit_of (limit : option Z) : nat := Z.to_nat (default 100%Z limit).

(** The search term occurs in an optional field. *)
Definition occurs_in (q : string) (field : option string) : Prop :=
  match field with
  | Some s => Regex.ci_substring q s
  | None => False
  end.

(** The words of the specification for [q]: "the substring occurs in name,
    generic_name, or sku". *)
Definition q_occurs (q : string) (m : Medicine.t) : Prop :=
  Regex.ci_substring q (Medicine.name m)
  ∨ occurs_in q (Medicine.generic_name m)
  ∨ occurs_in q (Medicine.sku m).

(** The words of the specification for [low_stock]. *)
Definition is_low_stock (m : Medicine.t) : Prop :=
  (Medicine.stock m ≤ Medicine.reorder_level m)%Z.

(** The words of the specification for [role] and [active]: an exact match
    when supplied, no restriction otherwise. *)
Definition role_is (role : option string) (s : Staff.t) : Prop :=
  match role with
  | Some r => Staff.role s = r
  | None => True
  end.

Definition active_is (active : option bool) (s : Staff.t) : Prop :=
  match active with
  | Some b => Staff.is_active s = b
  | None => True
  end.

(** The restriction [list_staff] draws from [role]: an exact match with a
    role that is given and not empty, none otherwise. *)
Definition role_given (role : option string) (s : Staff.t) : Prop :=
  match role with
  | Some (String _ _ as r) => Staff.role s = r
  | _ => True
  end.

(** The search term is made of ordinary characters only. *)
Definition plain_term (q : string) : Prop :=
  forallb Regex.plain (list_ascii_of_string q) = true.

(** A body holds a field whose value the validator reads as [x]. *)
Definition holds_float `{Pydantic} (body : dict) (name : string) (x : Q) : Prop :=
  ∃ v, dict_get name body = Some v ∧ float_type v = Some x.

Definition holds_int `{Pydantic} (body : dict) (name : string) (z : Z) : Prop :=
  ∃ v, dict_get name body = Some v ∧ int_type v = Some z.

(** The four offences of a medicine body that the specification lists. *)
Definition offending `{Pydantic} (body : dict) : Prop :=
  (∃ x, holds_float body "price" x ∧ (x < 0)%Q)
  ∨ (∃ z, holds_int body "stock" z ∧ (z < 0)%Z)
  ∨ (∃ x, holds_float body "tax_rate" x ∧ (100 < x)%Q)
  ∨ (∃ v, dict_get "unit" body = Some v ∧ ∀ u, u ∈ Medicine.units → v ≠ VStr u).

(** The invariant of an accepted medicine. *)
Definition Medicine_invariant (m : Medicine.t) : Prop :=
  (0 <= Medicine.price m)%Q
  ∧ (∀ c, Medicine.cost_price m = Some c → (0 <= c)%Q)
  ∧ (0 ≤ Medicine.stock m)%Z
  ∧ (0 ≤ Medicine.reorder_level m)%Z
  ∧ (0 <= Medicine.tax_rate m)%Q ∧ (Medicine.tax_rate m <= 100)%Q.

(** The store is reachable and holds these documents in a collection. *)
Definition holds (d : database) (collection_name : string) (docs : list dict) : Prop :=
  failure d = None ∧ documents d collection_name = docs.

(** The filters [list_prescriptions] and [list_suppliers] build before
    they call [get_documents]. *)
Definition list_prescriptions_filt (status : option string) : dict :=
  match status with
  | Some (String _ _ as status) => [("status", VStr status)]
  | _ => []
  end.

Definition list_suppliers_filt (q : option string) : dict :=
  match q with
  | Some (String _ _ as q) =>
      [("$or", VList [ VDict [("name", regex_i q)];
                       VDict [("contact_name", regex_i q)] ])]
  | _ => []
  end.

(** The words of the specification for [limit], about one list endpoint on
    the store [d]; [matching] are the documents of its collection that its
    filter selects, in store order, and [endpoint limit] is the request
    under each limit ([None]: the caller gave none).  The endpoint answers
    the first [limit] of the matching documents: the first 100 when the
    caller gave no limit, as many as the caller asked for, however many that
    is, when that many match, and exactly one, the first, under [limit=1]
    when three match. *)
Definition limit_applies `{Pydantic} `{Store} (environ : gmap string string)
    (d : database) (matching : list dict) (endpoint : option Z → request) : Prop :=
  (∀ limit, route environ (endpoint limit) (Some d)
            = (listing (take (limit_of limit) matching), Some d))
  ∧ route environ (endpoint None) (Some d) = (listing (take 100 matching), Some d)
  ∧ (∀ n, (0 ≤ n)%Z →
       route environ (endpoint (Some n)) (Some d)
       = (listing (take (Z.to_nat n) matching), Some d)
       ∧ length (take (Z.to_nat n) matching) = Z.to_nat n `min` length matching)
  ∧ (length matching = 3 →
     ∃ doc, matching !! 0 = Some doc
            ∧ route environ (endpoint (Some 1%Z)) (Some d) = (listing [doc], Some d)).

(** A validation that succeeds. *)
Definition is_valid {A} (r : validated A) : Prop := ∃ a, r = Valid a.

(** The fields of a prescription body other than [patient_name] and
    [items] are absent or valid. *)
Definition rest_valid `{Pydantic} (b : dict) : Prop :=
  is_valid (field b "number" (Optional str_type) (Some None) unconstrained)
  ∧ is_valid (field b "patient_phone" (Optional str_type) (Some None) unconstrained)
  ∧ is_valid (field b "doctor_name" (Optional str_type) (Some None) unconstrained)
  ∧ is_valid (field b "subtotal" float_type (Some 0%Q) (ge_float 0))
  ∧ is_valid (field b "tax" float_type (Some 0%Q) (ge_float 0))
  ∧ is_valid (field b "total" float_type (Some 0%Q) (ge_float 0))
  ∧ is_valid (field b "status" (Literal Prescription.statuses) (Some "pending")
                    unconstrained)
  ∧ is_valid (field b "payment_method"
                    (Optional (Literal Prescription.payment_methods)) (Some None)
                    unconstrained).

(** The answer of a POST route that created a document. *)
Definition created (new_id : string) : outcome :=
  Handled (Return (VDict [("id", VStr new_id)])).

(** The store [d'] is the store [d] with one more document, stored for
    [payload] in the named collection under a new identifier. *)
Definition inserted {A} `{BaseModel A} (d d' : database) (collection_name : string)
    (payload : A) : Prop :=
  failure d' = None
  ∧ documents d' collection_name
    = documents d collection_name ++ [stored (fresh_id (next_id d), payload)]
  ∧ ∀ other, other ≠ collection_name → documents d' other = documents d other.

(** ** Instances to run the model on concrete inputs *)

(** A validation library without lax conversions. *)
Definition strict : Pydantic :=
  {| lax_int := λ _, None;
     lax_float := λ _, None;
     lax_bool := λ _, None;
     date_type := λ v, match v with VStr s => Some s | _ => None end;
     model_json_schema := λ _, VDict [] |}.

(** A store that knows no pattern beyond the modelled fragment. *)
Definition bare : Store :=
  {| store_regex := {| Regex.regex_compile := λ _ _, None |};
     bson_lte := λ _ _, false |}.

Definition is_hex (c : ascii) : bool :=
  existsb (Ascii.eqb c) (list_ascii_of_string "0123456789abcdefABCDEF").

(** An identifier library that takes the 24-digit hexadecimal strings. *)
Definition hex24 : Bson :=
  {| ObjectId := string;
     ObjectId_new := λ s,
       if (String.length s =? 24)%nat && forallb is_hex (list_ascii_of_string s)
       then Return s
       else Raise (Exception (s +:+ " is not a valid ObjectId")) |}.

Definition empty_db : database :=
  {| failure := None; next_id := 0; collections := ∅ |}.

(** An environment without the two connection variables. *)
Definition no_environ : gmap string string := ∅.

(** A reachable store with the given documents in one collection. *)
Definition store_of (collection_name : string) (docs : list dict) : database :=
  {| failure := None;
     next_id := length docs;
     collections := {[collection_name := docs]} |}.

(** Two medicines: one at its reorder level, one above it. *)
Definition bax : Medicine.t :=
  Medicine.mk "Bax" None None None None None None 2 None 10 10 "unit" true 0 None.
Definition cor : Medicine.t :=
  Medicine.mk "Cor" None None None None None None 2 None 11 10 "unit" true 0 None.
Definition bax_cor : list (string * Medicine.t) := [("0", bax); ("1", cor)].

(** A low-stock medicine, the body that creates it, and the store after the
    body has been posted [n] times to an empty store. *)
Definition aspirin : Medicine.t :=
  Medicine.mk "Aspirin" None None None (Some "SK-1") None None 1 None 3 10
              "unit" true 0 None.
Definition aspirin_body : value :=
  VDict [("name", VStr "Aspirin"); ("sku", VStr "SK-1"); ("price", VInt 1);
         ("stock", VInt 3)].
Definition aspirins (n : nat) : list (string * Medicine.t) :=
  (λ i, (fresh_id i, aspirin)) <$> seq 0 n.
Definition posted (n : nat) : db_state :=
  Nat.iter n (λ db, (@app strict bare no_environ (POST_medicines aspirin_body) db).2)
           (Some empty_db).

(** Three members of staff. *)
Definition ada : Staff.t := Staff.mk "Ada" "ada@x" "Admin" None true.
Definition sam : Staff.t := Staff.mk "Sam" "sam@x" "Sales" None false.
Definition ann : Staff.t := Staff.mk "Ann" "ann@x" "Admin" None false.
Definition the_staff : list (string * Staff.t) := [("0", ada); ("1", sam); ("2", ann)].

(** A medicine named "abc" and nothing else. *)
Definition abc : Medicine.t :=
  Medicine.mk "abc" None None None None None None 1 None 0 10 "unit" true 0 None.

(* ===================================================================== *)
(** * Facts about the pattern fragment *)
(* ===================================================================== *)

Section RegexFacts.
Import Regex.

Lemma plain_not_dot c : plain c = true → Ascii.eqb c "." = false.
Proof.
  intros Hc. destruct (Ascii.eqb_spec c ".") as [->|]; [|done].
  by vm_compute in Hc.
Qed.

(** A term of ordinary characters is read as the sequence of its letters. *)
Lemma parse_plain p : forallb plain p = true → parse p = Some (Lit <$> p).
Proof.
  induction p as [|c p IH]; simpl; [done|].
  intros [Hc Hp]%andb_prop. rewrite (plain_not_dot c Hc), Hc, (IH Hp). done.
Qed.

Lemma match_here_lit p s :
  match_here (Lit <$> p) s = true ↔ ∃ post, lower <$> s = (lower <$> p) ++ post.
Proof.
  revert s. induction p as [|c p IH]; intros s; csimpl.
  - split; [intros _; by eexists|done].
  - destruct s as [|a s]; csimpl.
    + split; [done|]. by intros [post Hpost].
    + rewrite andb_true_iff, IH. split.
      * intros [Hc%Ascii.eqb_eq [post Hpost]]. exists post. by rewrite Hc, Hpost.
      * intros [post [= Hc Hpost]]. split; [by apply Ascii.eqb_eq|by exists post].
Qed.

(** The search with the letters of [p] succeeds exactly when [p] occurs in
    the subject up to case. *)
Lemma search_lit p s :
  search (Lit <$> p) s = true
  ↔ ∃ pre post, lower <$> s = pre ++ (lower <$> p) ++ post.
Proof.
  induction s as [|a s IH]; csimpl.
  - rewrite orb_false_r, match_here_lit. split.
    + intros [post Hpost]. by exists [], post.
    + intros (pre & post & Hs). destruct pre; [by exists post|done].
  - rewrite orb_true_iff, IH. split.
    + intros [H|(pre & post & Hs)].
      * apply match_here_lit in H as [post Hpost]. by exists [], post.
      * exists (lower a :: pre), post. csimpl. by rewrite Hs.
    + intros (pre & post & Hs). destruct pre as [|x pre]; csimpl in Hs.
      * left. apply match_here_lit. by exists post.
      * right. injection Hs as _ Hs. by exists pre, post.
Qed.

Lemma search_ci_substring q s :
  search (Lit <$> list_ascii_of_string q) (list_ascii_of_string s) = true
  ↔ ci_substring q s.
Proof. apply search_lit. Qed.

(** How the store reads a term of ordinary characters. *)
Lemma compile_plain `{Engine} q :
  forallb plain (list_ascii_of_string q) = true →
  compile q "i"
  = Some (λ subject, search (Lit <$> list_ascii_of_string q)
                            (list_ascii_of_string subject)).
Proof. intros Hq. unfold compile. by rewrite (parse_plain _ Hq). Qed.

End RegexFacts.

#[export] Instance ci_substring_dec q s : Decision (Regex.ci_substring q s).
Proof.
  destruct (Regex.search (Regex.Lit <$> list_ascii_of_string q)
                         (list_ascii_of_string s)) eqn:E.
  - left. by apply search_ci_substring.
  - right. intros Hs%search_ci_substring. congruence.
Defined.

#[export] Instance occurs_in_dec q o : Decision (occurs_in q o).
Proof. destruct o; simpl; apply _. Defined.

#[export] Instance q_occurs_dec q m : Decision (q_occurs q m).
Proof. unfold q_occurs. apply _. Defined.

#[export] Instance is_low_stock_dec m : Decision (is_low_stock m).
Proof. unfold is_low_stock. apply _. Defined.

#[export] Instance role_is_dec role s : Decision (role_is role s).
Proof. destruct role; simpl; apply _. Defined.

#[export] Instance role_given_dec role s : Decision (role_given role s).
Proof. destruct role as [[|c r]|]; simpl; apply _. Defined.

#[export] Instance active_is_dec active s : Decision (active_is active s).
Proof. destruct active; simpl; apply _. Defined.

(* ===================================================================== *)
(** * Facts about reads *)
(* ===================================================================== *)

Section ReadFacts.
Context `{Pydantic} `{Store}.

Lemma filter_reflect {A} (f : A → bool) (P : A → Prop) `{∀ x, Decision (P x)} l :
  (∀ x, x ∈ l → (f x = true ↔ P x)) → List.filter f l = filter P l.
Proof.
  induction l as [|x l IH]; intros Hf; [done|].
  simpl. rewrite filter_cons, IH by (intros y Hy; apply Hf; by right).
  destruct (f x) eqn:E; case_decide as HP; try done.
  - apply (Hf x) in E; [done|by left].
  - apply (Hf x) in HP; [congruence|by left].
Qed.

Lemma filter_fmap {A B} (g : A → B) (p : B → bool) l :
  List.filter p (g <$> l) = g <$> List.filter (λ x, p (g x)) l.
Proof.
  induction l as [|x l IH]; [done|]. csimpl. rewrite IH. by destruct (p (g x)).
Qed.

(** A read of documents stored for the payloads [xs], through a compiled
    filter that agrees with the property [P] on them. *)
Lemma read_stored {A} `{BaseModel A} (P : string * A → Prop)
    `{∀ x, Decision (P x)} (p : dict → bool) (xs : list (string * A)) n :
  (∀ x, x ∈ xs → (p (stored x) = true ↔ P x)) →
  take n (List.filter p (stored <$> xs)) = stored <$> take n (filter P xs).
Proof.
  intros Hp. rewrite filter_fmap, fmap_take. do 2 f_equal.
  by apply filter_reflect.
Qed.

Lemma at_most_param {A} limit (l : list A) :
  at_most (param limit (Some 100%Z)) l = take (limit_of limit) l.
Proof. by destruct limit. Qed.

(** What a list route answers once its filter compiles. *)
Lemma read_route collection_name filt limit d docs p :
  holds d collection_name docs →
  compile_query (VDict filt) = Return p →
  call (documents_value
          (get_documents collection_name filt (param limit (Some 100%Z)))) (Some d)
  = (listing (take (limit_of limit) (List.filter p docs)), Some d).
Proof.
  intros [Hd <-] Hp. unfold call, documents_value, get_documents, mbind, io_bind.
  rewrite Hd, Hp. simpl. by rewrite at_most_param.
Qed.

Lemma Qle_bool_inject_Z a b : Qle_bool (inject_Z a) (inject_Z b) = (a <=? b)%Z.
Proof. unfold Qle_bool. simpl. by rewrite !Z.mul_1_r. Qed.

(** The low-stock expression on a stored medicine. *)
Lemma lte_stock (im : string * Medicine.t) :
  lte (operand (VStr "$stock") (stored im))
      (operand (VStr "$reorder_level") (stored im)) = true
  ↔ is_low_stock im.2.
Proof.
  unfold is_low_stock. simpl. unfold lte. simpl.
  rewrite Qle_bool_inject_Z. apply Z.leb_le.
Qed.

(** The filter of [list_medicines] with [low_stock] set is the filter
    without it, and the stock comparison besides. *)
Lemma low_stock_conjunct q p :
  compile_query (VDict (list_medicines_filt q (Some false))) = Return p →
  ∃ p', compile_query (VDict (list_medicines_filt q (Some true))) = Return p'
        ∧ ∀ doc, p' doc
                 = p doc && lte (operand (VStr "$stock") doc)
                                (operand (VStr "$reorder_level") doc).
Proof.
  destruct q as [[|c q]|]; simpl.
  - intros [= <-]. eexists; split; [done|]. intros doc; cbn beta.
    by rewrite andb_true_r.
  - destruct (Regex.compile (String c q) "i"); simpl; [|done].
    intros [= <-]. eexists; split; [done|]. intros doc; cbn beta.
    by rewrite !andb_true_r.
  - intros [= <-]. eexists; split; [done|]. intros doc; cbn beta.
    by rewrite andb_true_r.
Qed.

End ReadFacts.

(* ===================================================================== *)
(** * Medicines: the low-stock flag *)
(* ===================================================================== *)

(** C1, as amended.  [GET /api/medicines] with [low_stock=true] selects,
    among the stored medicines that the rest of the request selects (every
    one of them without [q], those that [q] selects otherwise: the two
    restrictions are combined by AND), exactly those with
    [stock ≤ reorder_level], the case of equality included.  It answers
    them in store order up to the limit in force (the caller's, or 100),
    hence all of them when they are no more than that limit. *)
Theorem low_stock_listing `{Pydantic} `{Store} environ q limit d
    (ms : list (string * Medicine.t)) (p : dict → bool) :
  holds d "medicine" (stored <$> ms) →
  compile_query (VDict (list_medicines_filt q (Some false))) = Return p →
  let low := filter (λ im, p (stored im) ∧ is_low_stock im.2) ms in
  route environ (GET_medicines q (Some true) limit) (Some d)
  = (listing (stored <$> take (limit_of limit) low), Some d)
  ∧ (length low ≤ limit_of limit →
     route environ (GET_medicines q (Some true) limit) (Some d)
     = (listing (stored <$> low), Some d))
  ∧ (q = None → ∀ im, im ∈ low ↔ im ∈ ms ∧ (Medicine.stock im.2 ≤ Medicine.reorder_level im.2)%Z).
Proof.
  intros Hd Hp low.
  destruct (low_stock_conjunct q p Hp) as (p' & Hp' & Hlow).
  assert (route environ (GET_medicines q (Some true) limit) (Some d)
          = (listing (stored <$> take (limit_of limit) low), Some d)) as Hroute.
  { transitivity
      (call (documents_value
               (get_documents "medicine" (list_medicines_filt q (Some true))
                              (param limit (Some 100%Z)))) (Some d)).
    { by destruct q. }
    rewrite (read_route _ _ _ _ _ p' Hd Hp'). do 3 f_equal.
    apply read_stored. intros im _.
    rewrite Hlow, andb_true_iff, lte_stock. by rewrite Is_true_true. }
  split; [done|]. split.
  - intros Hlen. by rewrite Hroute, take_ge.
  - intros -> im. subst low. simpl in Hp. injection Hp as <-.
    rewrite list_elem_of_filter. unfold is_low_stock. simpl.
    split; [by intros [[_ ?] ?]|by intros [? ?]].
Qed.

(** C1 as stated fails: after 101 low-stock medicines have been posted, the
    request without a limit answers 100 of them. *)
Lemma low_stock_listing_is_capped :
  (∃ d, posted 101 = Some d ∧ holds d "medicine" (stored <$> aspirins 101))
  ∧ Forall (λ im, (Medicine.stock im.2 ≤ Medicine.reorder_level im.2)%Z) (aspirins 101)
  ∧ length (aspirins 101) = 101
  ∧ @route strict bare no_environ (GET_medicines None (Some true) None) (posted 101)
    = (listing (stored <$> take 100 (aspirins 101)), posted 101)
  ∧ length (stored <$> take 100 (aspirins 101)) = 100.
Proof.
  split; [|split; [|split; [|split]]].
  - eexists. split; [by vm_compute|]. split; by vm_compute.
  - apply Forall_fmap, Forall_forall. intros i _. simpl. lia.
  - unfold aspirins. by rewrite length_fmap, length_seq.
  - by vm_compute.
  - by vm_compute.
Qed.

(** The amended statement at a store of two medicines, one of them at its
    reorder level and one above it. *)
Lemma low_stock_listing_witness :
  @route strict bare no_environ (GET_medicines None (Some true) None)
         (Some (store_of "medicine" (stored <$> bax_cor)))
  = (listing [stored ("0", bax)], Some (store_of "medicine" (stored <$> bax_cor))).
Proof.
  etransitivity.
  - refine (proj1 (@low_stock_listing strict bare no_environ None None
                     (store_of "medicine" (stored <$> bax_cor)) bax_cor
                     (λ _, true) _ _)).
    + split; by vm_compute.
    + reflexivity.
  - by vm_compute.
Defined.

(* ===================================================================== *)
(** * Medicines: the search term *)
(* ===================================================================== *)

Section SearchFacts.
Context `{Pydantic} `{Store}.

Lemma ci_substring_empty s : Regex.ci_substring "" s.
Proof. by exists [], (Regex.lower <$> list_ascii_of_string s). Qed.

(** The filter of [list_medicines] for a term of ordinary characters
    selects the stored medicines in which the term occurs. *)
Lemma plain_term_query q :
  plain_term q →
  ∃ p, compile_query (VDict (list_medicines_filt (Some q) (Some false))) = Return p
       ∧ ∀ im : string * Medicine.t, p (stored im) = true ↔ q_occurs q im.2.
Proof.
  intros Hq. destruct q as [|c q].
  - eexists; split; [done|]. intros im. split; [|done].
    intros _. left. apply ci_substring_empty.
  - simpl. rewrite (compile_plain _ Hq). simpl. eexists; split; [done|].
    intros [id m]. cbn beta. unfold q_occurs, occurs_in.
    rewrite !andb_true_r, orb_false_r, !orb_true_iff.
    change (dict_get "name" (stored (id, m))) with (Some (VStr (Medicine.name m))).
    change (dict_get "generic_name" (stored (id, m)))
      with (Some (dump_option VStr (Medicine.generic_name m))).
    change (dict_get "sku" (stored (id, m)))
      with (Some (dump_option VStr (Medicine.sku m))).
    simpl. rewrite (search_ci_substring (String c q)).
    destruct (Medicine.generic_name m), (Medicine.sku m); simpl;
      rewrite ?(search_ci_substring (String c q)); intuition congruence.
Qed.

End SearchFacts.

(** C2, as amended.  For a search term [q] made of ordinary characters
    (none of the pattern language's special characters),
    [GET /api/medicines?q=<q>] answers, in store order and up to the limit in
    force, the stored medicines in whose name, generic_name or sku the term
    occurs as a substring up to case; when these are within the limit, a
    stored medicine is answered if and only if the term so occurs. *)
Theorem search_listing `{Pydantic} `{Store} environ q limit d
    (ms : list (string * Medicine.t)) :
  plain_term q →
  holds d "medicine" (stored <$> ms) →
  let hits := filter (λ im, q_occurs q im.2) ms in
  route environ (GET_medicines (Some q) None limit) (Some d)
  = (listing (stored <$> take (limit_of limit) hits), Some d)
  ∧ (length hits ≤ limit_of limit →
     route environ (GET_medicines (Some q) None limit) (Some d)
     = (listing (stored <$> hits), Some d))
  ∧ (∀ im, im ∈ hits ↔ im ∈ ms ∧ q_occurs q im.2).
Proof.
  intros Hq Hd hits.
  destruct (plain_term_query q Hq) as (p & Hp & Hocc).
  assert (route environ (GET_medicines (Some q) None limit) (Some d)
          = (listing (stored <$> take (limit_of limit) hits), Some d)) as Hroute.
  { change (route environ (GET_medicines (Some q) None limit) (Some d))
      with (call (documents_value
                    (get_documents "medicine" (list_medicines_filt (Some q) (Some false))
                                   (param limit (Some 100%Z)))) (Some d)).
    rewrite (read_route _ _ _ _ _ p Hd Hp). do 3 f_equal.
    apply read_stored. intros im _. apply Hocc. }
  split; [done|]. split.
  - intros Hlen. by rewrite Hroute, take_ge.
  - intros im. subst hits. by rewrite list_elem_of_filter, (comm and).
Qed.

(** C2 as stated fails: the term is handed to the store as a pattern, so
    ["."] selects the medicine named "abc", in which no full stop occurs;
    and the answer is capped, so of 101 medicines in which ["a"] occurs the
    request without a limit answers 100. *)
Lemma search_term_is_a_pattern :
  (@route strict bare no_environ (GET_medicines (Some ".") None None)
          (Some (store_of "medicine" [stored ("0", abc)]))
   = (listing [stored ("0", abc)], Some (store_of "medicine" [stored ("0", abc)]))
   ∧ ¬ q_occurs "." abc)
  ∧ (Forall (λ im, q_occurs "a" im.2) (aspirins 101)
     ∧ @route strict bare no_environ (GET_medicines (Some "a") None None) (posted 101)
       = (listing (stored <$> take 100 (aspirins 101)), posted 101)
     ∧ "100" ∈ (aspirins 101).*1
     ∧ "100" ∉ (take 100 (aspirins 101)).*1).
Proof.
  split; [split|split; [|split; [|split]]].
  - by vm_compute.
  - apply (bool_decide_eq_false_1 (q_occurs "." abc)). by vm_compute.
  - apply Forall_fmap, Forall_forall. intros i _.
    apply (bool_decide_eq_true_1 (q_occurs "a" aspirin)). by vm_compute.
  - by vm_compute.
  - apply (bool_decide_eq_true_1 ("100" ∈ (aspirins 101).*1)). by vm_compute.
  - apply (bool_decide_eq_false_1 ("100" ∈ (take 100 (aspirins 101)).*1)).
    by vm_compute.
Qed.

(** The amended statement for the term ["sk"], which occurs in the sku of
    one of two stored medicines. *)
Lemma search_listing_witness :
  @route strict bare no_environ (GET_medicines (Some "sk") None None)
         (Some (store_of "medicine" (stored <$> [("0", abc); ("1", aspirin)])))
  = (listing [stored ("1", aspirin)],
     Some (store_of "medicine" (stored <$> [("0", abc); ("1", aspirin)]))).
Proof.
  etransitivity.
  - refine (proj1 (@search_listing strict bare no_environ "sk" None
                     (store_of "medicine" (stored <$> [("0", abc); ("1", aspirin)]))
                     [("0", abc); ("1", aspirin)] _ _)).
    + by vm_compute.
    + split; by vm_compute.
  - by vm_compute.
Defined.

(* ===================================================================== *)
(** * Staff: role and active *)
(* ===================================================================== *)

Section StaffFacts.
Context `{Pydantic} `{Store}.

(** The filter of [list_staff] selects the stored staff of the given role
    and of the given activity, each when supplied. *)
Lemma staff_query role active :
  role ≠ Some "" →
  ∃ p, compile_query (VDict (list_staff_filt role active)) = Return p
       ∧ ∀ x : string * Staff.t,
           p (stored x) = true ↔ role_is role x.2 ∧ active_is active x.2.
Proof.
  intros Hrole.
  destruct role as [[|c r]|], active as [b|]; try done;
    (eexists; split; [done|]); intros [id s]; cbn beta;
    change (dict_get "role" (stored (id, s))) with (Some (VStr (Staff.role s)));
    change (dict_get "is_active" (stored (id, s)))
      with (Some (VBool (Staff.is_active s)));
    unfold on_field, scalar_eqb, role_is, active_is;
    rewrite ?andb_true_r, ?andb_true_iff, ?String.eqb_eq, ?Bool.eqb_true_iff;
    cbn [snd]; intuition congruence.
Qed.

End StaffFacts.

(** C5, as amended.  [GET /api/staff] answers, in store order and up to
    the limit in force, the stored staff whose role is the one supplied, if
    one is supplied and it is not empty, and whose [is_active] is the value
    of [active], if one is supplied: with [active=false] only inactive
    staff, with [active=true] only active staff, without [active] both; the
    two restrictions are combined by AND, and each narrows whatever the
    other is.  A role supplied empty restricts nothing, like a role left
    out. *)
Theorem staff_listing `{Pydantic} `{Store} environ role active limit d
    (ss : list (string * Staff.t)) :
  holds d "staff" (stored <$> ss) →
  let selected := filter (λ x, role_given role x.2 ∧ active_is active x.2) ss in
  route environ (GET_staff role active limit) (Some d)
  = (listing (stored <$> take (limit_of limit) selected), Some d)
  ∧ (∀ x, x ∈ selected ↔ x ∈ ss ∧ role_given role x.2 ∧ active_is active x.2)
  ∧ (active = Some false → Forall (λ x, Staff.is_active x.2 = false) selected)
  ∧ (active = Some true → Forall (λ x, Staff.is_active x.2 = true) selected)
  ∧ (active = None → selected = filter (λ x, role_given role x.2) ss)
  ∧ (∀ r, role = Some r → r ≠ "" →
       selected = filter (λ x, Staff.role x.2 = r ∧ active_is active x.2) ss)
  ∧ (role = None ∨ role = Some "" →
     selected = filter (λ x, active_is active x.2) ss).
Proof.
  intros Hd selected.
  set (given := match role with Some (String _ _) => role | _ => None end).
  assert (given ≠ Some "") as Hgiven by (by destruct role as [[|c r]|]).
  assert (∀ s, role_given role s ↔ role_is given s) as Hrole
    by (by destruct role as [[|c r]|]).
  destruct (staff_query given active Hgiven) as (p & Hp & Hsel).
  assert (∀ x, x ∈ selected ↔ x ∈ ss ∧ role_given role x.2 ∧ active_is active x.2)
    as Hin.
  { intros x. subst selected. by rewrite list_elem_of_filter, (comm and). }
  split; [|split; [done|split; [|split; [|split; [|split]]]]].
  - transitivity
      (call (documents_value
               (get_documents "staff" (list_staff_filt given active)
                              (param limit (Some 100%Z)))) (Some d)).
    { by destruct role as [[|c r]|], active. }
    rewrite (read_route _ _ _ _ _ p Hd Hp). do 3 f_equal.
    apply read_stored. intros x _. rewrite Hrole. apply Hsel.
  - intros ->. apply Forall_forall. intros x Hx%Hin. apply Hx.
  - intros ->. apply Forall_forall. intros x Hx%Hin. apply Hx.
  - intros ->. subst selected. apply list_filter_iff. intros x. simpl. tauto.
  - intros r -> Hr. subst selected. apply list_filter_iff. intros x.
    by destruct r.
  - intros Hnone. subst selected. apply list_filter_iff. intros x.
    destruct Hnone as [-> | ->]; simpl; tauto.
Qed.

(** C5 as stated fails: a role supplied empty is no exact match with the
    empty role, which no member of staff has; it restricts nothing, and
    with [active=false] the route answers the two inactive members. *)
Lemma empty_role_restricts_nothing :
  @route strict bare no_environ (GET_staff (Some "") (Some false) None)
         (Some (store_of "staff" (stored <$> the_staff)))
  = (listing [stored ("1", sam); stored ("2", ann)],
     Some (store_of "staff" (stored <$> the_staff)))
  ∧ filter (λ x : string * Staff.t, Staff.role x.2 = "" ∧ Staff.is_active x.2 = false)
           the_staff = [].
Proof. split; by vm_compute. Qed.

(** The amended statement for the inactive administrators among three
    members of staff. *)
Lemma staff_listing_witness :
  @route strict bare no_environ (GET_staff (Some "Admin") (Some false) None)
         (Some (store_of "staff" (stored <$> the_staff)))
  = (listing [stored ("2", ann)], Some (store_of "staff" (stored <$> the_staff))).
Proof.
  etransitivity.
  - refine (proj1 (@staff_listing strict bare no_environ (Some "Admin") (Some false)
                     None (store_of "staff" (stored <$> the_staff)) the_staff _)).
    split; by vm_compute.
  - by vm_compute.
Defined.

(* ===================================================================== *)
(** * Medicines: [low_stock=false] *)
(* ===================================================================== *)

(** C9.  With [low_stock=false] the route builds the filter it builds when
    [low_stock] is left out, and answers the same; that filter has no
    [$expr] entry, so it asks nothing about the stock.  Only
    [low_stock=true] adds the entry that compares [stock] with
    [reorder_level]. *)
Theorem low_stock_false_is_omitted `{Pydantic} `{Store} environ q limit db :
  list_medicines_filt (param q None) (param (Some false) (Some false))
  = list_medicines_filt (param q None) (param None (Some false))
  ∧ route environ (GET_medicines q (Some false) limit) db
    = route environ (GET_medicines q None limit) db
  ∧ list_medicines_filt q (Some false) = list_medicines_filt q None
  ∧ dict_get "$expr" (list_medicines_filt q (Some false)) = None
  ∧ dict_get "$expr" (list_medicines_filt q (Some true))
    = Some (VDict [("$lte", VList [VStr "$stock"; VStr "$reorder_level"])])
  ∧ list_medicines_filt q (Some true)
    = list_medicines_filt q (Some false)
      ++ [("$expr", VDict [("$lte", VList [VStr "$stock"; VStr "$reorder_level"])])].
Proof. by destruct q as [[|c q]|]. Qed.

(* ===================================================================== *)
(** * The limit of the list endpoints *)
(* ===================================================================== *)

Section LimitFacts.
Context `{Pydantic} `{Store}.

(** An endpoint that reads through [get_documents] with the limit of a list
    route, on a reachable store and with a filter that compiles. *)
Lemma limit_applies_read environ d collection_name filt p
    (endpoint : option Z → request) :
  failure d = None →
  compile_query (VDict filt) = Return p →
  (∀ limit,
     route environ (endpoint limit) (Some d)
     = call (documents_value
               (get_documents collection_name filt (param limit (Some 100%Z))))
            (Some d)) →
  limit_applies environ d (List.filter p (documents d collection_name)) endpoint.
Proof.
  intros Hd Hp Hroute.
  assert (∀ limit,
            route environ (endpoint limit) (Some d)
            = (listing (take (limit_of limit)
                          (List.filter p (documents d collection_name))), Some d))
    as Hall.
  { intros limit. rewrite Hroute.
    by apply (read_route collection_name filt limit d). }
  split; [done|]. split; [apply (Hall None)|]. split.
  - intros n Hn. split; [apply (Hall (Some n))|]. apply length_take.
  - intros Hlen. rewrite (Hall (Some 1%Z)).
    destruct (List.filter p (documents d collection_name)) as [|doc ?]; [done|].
    by exists doc.
Qed.

End LimitFacts.

(** C4.  On a reachable store, each of the four list endpoints answers the
    first [limit] of the documents of its collection that its filter
    selects: without [limit] the first 100; with the caller's limit the
    first so many, however large the limit; hence exactly one document
    under [limit=1] when three match. *)
Theorem limit_parameter `{Pydantic} `{Store} environ d
    (q : option string) (low_stock : option bool) (status : option string)
    (role : option string) (active : option bool) :
  failure d = None →
  (∀ p, compile_query
          (VDict (list_medicines_filt q (param low_stock (Some false)))) = Return p →
        limit_applies environ d (List.filter p (documents d "medicine"))
                      (GET_medicines q low_stock))
  ∧ (∀ p, compile_query (VDict (list_prescriptions_filt status)) = Return p →
          limit_applies environ d (List.filter p (documents d "prescription"))
                        (GET_prescriptions status))
  ∧ (∀ p, compile_query (VDict (list_staff_filt role active)) = Return p →
          limit_applies environ d (List.filter p (documents d "staff"))
                        (GET_staff role active))
  ∧ (∀ p, compile_query (VDict (list_suppliers_filt q)) = Return p →
          limit_applies environ d (List.filter p (documents d "supplier"))
                        (GET_suppliers q)).
Proof.
  intros Hd. split; [|split; [|split]]; intros p Hp.
  - apply (limit_applies_read environ d "medicine" _ p _ Hd Hp).
    intros limit. by destruct q.
  - apply (limit_applies_read environ d "prescription" _ p _ Hd Hp).
    intros limit. by destruct status as [[|c s]|].
  - apply (limit_applies_read environ d "staff" _ p _ Hd Hp).
    intros limit. by destruct role, active.
  - apply (limit_applies_read environ d "supplier" _ p _ Hd Hp).
    intros limit. by destruct q as [[|c s]|].
Qed.

(** The statement at a store of three members of staff: [limit=1] answers
    the first of them and no other, [limit=2] the first two, and no limit
    all three. *)
Lemma limit_parameter_witness :
  @route strict bare no_environ (GET_staff None None (Some 1%Z))
         (Some (store_of "staff" (stored <$> the_staff)))
  = (listing [stored ("0", ada)], Some (store_of "staff" (stored <$> the_staff)))
  ∧ @route strict bare no_environ (GET_staff None None (Some 2%Z))
           (Some (store_of "staff" (stored <$> the_staff)))
    = (listing [stored ("0", ada); stored ("1", sam)],
       Some (store_of "staff" (stored <$> the_staff)))
  ∧ @route strict bare no_environ (GET_staff None None None)
           (Some (store_of "staff" (stored <$> the_staff)))
    = (listing (stored <$> the_staff), Some (store_of "staff" (stored <$> the_staff))).
Proof.
  destruct (proj1 (proj2 (proj2
              (@limit_parameter strict bare no_environ
                 (store_of "staff" (stored <$> the_staff))
                 None None None None None eq_refl)))
              (λ _, true) eq_refl) as (Hall & _).
  split; [|split].
  - etransitivity; [apply (Hall (Some 1%Z))|by vm_compute].
  - etransitivity; [apply (Hall (Some 2%Z))|by vm_compute].
  - etransitivity; [apply (Hall None)|by vm_compute].
Defined.

(* ===================================================================== *)
(** * Validation of a medicine *)
(* ===================================================================== *)

Section ValidationFacts.
Context `{Pydantic}.

(** A field that validates took its default, the field being absent, or
    read a value of its type that meets its constraint. *)
Lemma field_valid {A} b n (type : value → option A) d c a :
  field b n type d c = Valid a →
  (dict_get n b = None ∧ d = Some a)
  ∨ (∃ v, dict_get n b = Some v ∧ type v = Some a ∧ c a = true).
Proof.
  unfold field. destruct (dict_get n b) as [v|].
  - destruct (type v) as [a'|] eqn:Ht; [|done]. destruct (c a') eqn:Hc; [|done].
    intros [= <-]. right. by exists v.
  - destruct d; [|done]. intros [= <-]. by left.
Qed.

Lemma Literal_sound choices v s :
  Literal choices v = Some s → v = VStr s ∧ s ∈ choices.
Proof.
  destruct v; simpl; try done.
  destruct (existsb _ _) eqn:Hex; [|done]. intros [= <-]. split; [done|].
  apply existsb_exists in Hex as (u & Hu & ->%String.eqb_eq).
  by apply list_elem_of_In.
Qed.

Lemma ge_float_le bound x : ge_float bound x = true ↔ (bound <= x)%Q.
Proof. apply Qle_bool_iff. Qed.

Lemma le_float_le bound x : le_float bound x = true ↔ (x <= bound)%Q.
Proof. apply Qle_bool_iff. Qed.

Lemma ge_int_le bound x : ge_int bound x = true ↔ (bound ≤ x)%Z.
Proof. apply Z.leb_le. Qed.

(** The constrained fields of an accepted medicine. *)
Lemma Medicine_fields_valid b m :
  Medicine.fields b = Valid m →
  field b "price" float_type None (ge_float 0) = Valid (Medicine.price m)
  ∧ field b "cost_price" (Optional float_type) (Some None) (on_some (ge_float 0))
    = Valid (Medicine.cost_price m)
  ∧ field b "stock" int_type (Some 0%Z) (ge_int 0) = Valid (Medicine.stock m)
  ∧ field b "reorder_level" int_type (Some 10%Z) (ge_int 0)
    = Valid (Medicine.reorder_level m)
  ∧ field b "unit" (Literal Medicine.units) (Some "unit") unconstrained
    = Valid (Medicine.unit m)
  ∧ field b "tax_rate" float_type (Some 0%Q) (λ x, ge_float 0 x && le_float 100 x)
    = Valid (Medicine.tax_rate m).
Proof.
  unfold Medicine.fields. intros Hm.
  repeat match type of Hm with
         | context [mbind _ (field ?b ?n ?t ?d ?c)] =>
             destruct (field b n t d c); simpl in Hm; [|discriminate Hm]
         end.
  injection Hm as <-. done.
Qed.

Lemma offending_invalid body : offending body → ∀ m, Medicine.fields body ≠ Valid m.
Proof.
  intros Hoff m (Hprice & _ & Hstock & _ & Hunit & Htax)%Medicine_fields_valid.
  destruct Hoff as [(x & (v & Hv & Hx) & Hneg)
                   |[(z & (v & Hv & Hz) & Hneg)
                   |[(x & (v & Hv & Hx) & Hbig)
                   |(v & Hv & Hnone)]]].
  - apply field_valid in Hprice as [[? ?]|(v' & Hv' & Hx' & Hc%ge_float_le)];
      [congruence|].
    assert (Medicine.price m = x) as Heq by congruence. rewrite Heq in Hc.
    by apply Qlt_not_le in Hneg.
  - apply field_valid in Hstock as [[? ?]|(v' & Hv' & Hz' & Hc%ge_int_le)];
      [congruence|].
    assert (Medicine.stock m = z) as Heq by congruence. lia.
  - apply field_valid in Htax as [[? ?]|(v' & Hv' & Hx' & Hc)]; [congruence|].
    apply andb_prop in Hc as [_ Hc%le_float_le].
    assert (Medicine.tax_rate m = x) as Heq by congruence. rewrite Heq in Hc.
    by apply Qlt_not_le in Hbig.
  - apply field_valid in Hunit as [[? ?]|(v' & Hv' & Hu & _)]; [congruence|].
    apply Literal_sound in Hu as [-> Hu]. apply (Hnone _ Hu). congruence.
Qed.

Lemma Medicine_fields_invariant b m :
  Medicine.fields b = Valid m → Medicine_invariant m.
Proof.
  intros (Hprice & Hcost & Hstock & Hlevel & _ & Htax)%Medicine_fields_valid.
  unfold Medicine_invariant. repeat split.
  - apply field_valid in Hprice as [[? ?]|(v & _ & _ & Hc%ge_float_le)]; done.
  - intros c Hcost'. rewrite Hcost' in Hcost.
    apply field_valid in Hcost as [[? ?]|(v & _ & _ & Hc)]; [done|].
    by apply ge_float_le in Hc.
  - apply field_valid in Hstock as [[? [= <-]]|(v & _ & _ & Hc%ge_int_le)]; done.
  - apply field_valid in Hlevel as [[? [= <-]]|(v & _ & _ & Hc%ge_int_le)]; done.
  - apply field_valid in Htax as [[? [= <-]]|(v & _ & _ & Hc)]; [done|].
    by apply andb_prop in Hc as [Hc%ge_float_le _].
  - apply field_valid in Htax as [[? [= <-]]|(v & _ & _ & Hc)]; [done|].
    by apply andb_prop in Hc as [_ Hc%le_float_le].
Qed.

End ValidationFacts.

(** C3.  A body for [POST /api/medicines] with a negative price, a
    negative stock, a tax rate above 100 or a unit outside the enumerated
    ones is rejected by validation: the answer is 422, [create_medicine] and
    with it [create_document] are not called, and the store is as it was.
    Conversely a medicine that validation accepts has a non-negative
    price, cost price (when it has one), stock and reorder level, and a tax
    rate between 0 and 100. *)
Theorem medicine_validation `{Pydantic} `{Store} environ (body : dict) db :
  (offending body →
   ∃ loc msg content,
     route environ (POST_medicines (VDict body)) db = (Rejected loc msg, db)
     ∧ app environ (POST_medicines (VDict body)) db = (Response 422 content, db))
  ∧ (∀ m, Medicine.validate (VDict body) = Valid m → Medicine_invariant m).
Proof.
  split.
  - intros Hoff. unfold app. simpl. unfold with_body, Medicine.validate. simpl.
    destruct (Medicine.fields body) as [m|loc msg] eqn:Hm.
    + by apply offending_invalid in Hm.
    + by eexists _, _, _.
  - intros m. apply Medicine_fields_invariant.
Qed.

(** The statement at a body with a negative price and at the body of a
    medicine that is accepted. *)
Lemma medicine_validation_witness :
  (∃ loc msg content,
     @route strict bare no_environ
            (POST_medicines (VDict [("name", VStr "Bad"); ("price", VInt (-1))]))
            (Some empty_db)
     = (Rejected loc msg, Some empty_db)
     ∧ @app strict bare no_environ
            (POST_medicines (VDict [("name", VStr "Bad"); ("price", VInt (-1))]))
            (Some empty_db)
       = (Response 422 content, Some empty_db))
  ∧ Medicine_invariant aspirin.
Proof.
  split.
  - apply (proj1 (@medicine_validation strict bare no_environ
                    [("name", VStr "Bad"); ("price", VInt (-1))] (Some empty_db))).
    left. exists (-1)%Q. split; [by exists (VInt (-1))|done].
  - apply (proj2 (@medicine_validation strict bare no_environ
                    [("name", VStr "Aspirin"); ("sku", VStr "SK-1");
                     ("price", VInt 1); ("stock", VInt 3)] (Some empty_db))).
    reflexivity.
Defined.

(* ===================================================================== *)
(** * Validation and storage of a prescription *)
(* ===================================================================== *)

Section PrescriptionFacts.
Context `{Pydantic} `{Store}.

Lemma PrescriptionItem_fields_valid b i :
  PrescriptionItem.fields b = Valid i →
  field b "quantity" int_type None (ge_int 1) = Valid (PrescriptionItem.quantity i).
Proof.
  unfold PrescriptionItem.fields. intros Hi.
  repeat match type of Hi with
         | context [mbind _ (field ?b ?n ?t ?d ?c)] =>
             destruct (field b n t d c); simpl in Hi; [|discriminate Hi]
         end.
  by injection Hi as <-.
Qed.

(** What validation read a prescription from. *)
Lemma Prescription_fields_valid b p :
  Prescription.fields b = Valid p →
  field b "items" (List_type (model_type PrescriptionItem.validate)) (Some [])
        unconstrained = Valid (Prescription.items p)
  ∧ field b "subtotal" float_type (Some 0%Q) (ge_float 0) = Valid (Prescription.subtotal p)
  ∧ field b "tax" float_type (Some 0%Q) (ge_float 0) = Valid (Prescription.tax p)
  ∧ field b "total" float_type (Some 0%Q) (ge_float 0) = Valid (Prescription.total p).
Proof.
  unfold Prescription.fields. intros Hp.
  repeat match type of Hp with
         | context [mbind _ (field ?b ?n ?t ?d ?c)] =>
             destruct (field b n t d c); simpl in Hp; [|discriminate Hp]
         end.
  by injection Hp as <-.
Qed.

(** An item that validation accepts has a quantity of at least one. *)
Lemma item_quantity v i :
  model_type PrescriptionItem.validate v = Some i →
  ∃ b, v = VDict b
       ∧ field b "quantity" int_type None (ge_int 1) = Valid (PrescriptionItem.quantity i).
Proof.
  unfold model_type, PrescriptionItem.validate, model.
  destruct v as [| | | | | |b]; try done.
  destruct (PrescriptionItem.fields b) as [i'|] eqn:Hi; [|done].
  intros [= <-]. exists b. split; [done|]. by apply PrescriptionItem_fields_valid.
Qed.

Lemma items_valid b p items :
  Prescription.fields b = Valid p →
  dict_get "items" b = Some (VList items) →
  Forall2 (λ v i, model_type PrescriptionItem.validate v = Some i)
          items (Prescription.items p).
Proof.
  intros (Hitems & _)%Prescription_fields_valid Hb.
  apply field_valid in Hitems as [[? ?]|(v & Hv & Hl & _)]; [congruence|].
  assert (v = VList items) as -> by congruence. simpl in Hl.
  by apply mapM_Some.
Qed.

(** A float field of an accepted body is read as it was supplied. *)
Lemma supplied_float b n d c x y :
  field b n float_type d c = Valid y → holds_float b n x → y = x.
Proof.
  intros [[? ?]|(v & Hv & Hy & _)]%field_valid (v' & Hv' & Hx); congruence.
Qed.

(** A POST with a valid body against a reachable store stores the payload. *)
Lemma create_document_inserted {A} `{BaseModel A} collection_name (payload : A) d :
  failure d = None →
  ∃ d', create_document collection_name payload (Some d)
        = (Return (fresh_id (next_id d)), Some d')
        ∧ inserted d d' collection_name payload.
Proof.
  intros Hd. unfold create_document. rewrite Hd. eexists. split; [done|].
  unfold inserted, documents. simpl. split; [done|]. split.
  - by rewrite lookup_insert_eq.
  - intros other Hother. by rewrite lookup_insert_ne.
Qed.

Lemma post_prescription environ body p d :
  Prescription.validate (VDict body) = Valid p →
  failure d = None →
  ∃ d', route environ (POST_prescriptions (VDict body)) (Some d)
        = (created (fresh_id (next_id d)), Some d')
        ∧ inserted d d' "prescription" p.
Proof.
  intros Hp Hd.
  destruct (create_document_inserted "prescription" p d Hd) as (d' & Hc & Hins).
  exists d'. split; [|done].
  unfold route, with_body, create_prescription, mbind, io_bind. by rewrite Hp, Hc.
Qed.

End PrescriptionFacts.

Section ItemFacts.
Context `{Pydantic}.

Lemma accepted_quantity v i :
  model_type PrescriptionItem.validate v = Some i →
  (1 ≤ PrescriptionItem.quantity i)%Z
  ∧ ∀ b z, v = VDict b → holds_int b "quantity" z → PrescriptionItem.quantity i = z.
Proof.
  intros (b & -> & Hq)%item_quantity.
  apply field_valid in Hq as [[? ?]|(w & Hw & Hz & Hc%ge_int_le)]; [done|].
  split; [done|]. intros b' z [= <-] (w' & Hw' & Hz'). congruence.
Qed.

Lemma accepted_quantities l k :
  Forall2 (λ v i, model_type PrescriptionItem.validate v = Some i) l k →
  Forall (λ i, (1 ≤ PrescriptionItem.quantity i)%Z) k.
Proof.
  induction 1 as [|v i l k Hv _ IH]; constructor; [|done].
  by apply accepted_quantity in Hv as [? _].
Qed.

Lemma accepted_items b p :
  Prescription.fields b = Valid p →
  Forall (λ i, (1 ≤ PrescriptionItem.quantity i)%Z) (Prescription.items p).
Proof.
  intros (Hitems & _)%Prescription_fields_valid.
  apply field_valid in Hitems as [[_ [= <-]]|(v & Hv & Hl & _)]; [done|].
  destruct v; try done. simpl in Hl. apply mapM_Some in Hl.
  by eapply accepted_quantities.
Qed.

End ItemFacts.

(** C7.  A body for [POST /api/prescriptions] one of whose items has
    quantity 0 is rejected by validation, and every item of an accepted
    prescription has a quantity of at least 1.  A body whose item has
    quantity 1 and unit price 0 is accepted, whatever non-negative subtotal,
    tax and total it carries.  The subtotal, tax and total of an accepted
    body are those the caller supplied, and the stored document holds them
    as they are: nothing is computed from the items or checked against
    them. *)
Theorem prescription_validation `{Pydantic} `{Store} environ (body : dict) db :
  (∀ items item,
     dict_get "items" body = Some (VList items) → VDict item ∈ items →
     holds_int item "quantity" 0 →
     ∃ loc msg, route environ (POST_prescriptions (VDict body)) db
                = (Rejected loc msg, db))
  ∧ (∀ p, Prescription.validate (VDict body) = Valid p →
       Forall (λ i, (1 ≤ PrescriptionItem.quantity i)%Z) (Prescription.items p))
  ∧ (∀ patient_name medicine_id x y z d,
       (0 <= x)%Q → (0 <= y)%Q → (0 <= z)%Q → failure d = None →
       ∃ p d',
         route environ
           (POST_prescriptions
              (VDict [ ("patient_name", VStr patient_name);
                       ("items", VList [VDict [ ("medicine_id", VStr medicine_id);
                                                ("quantity", VInt 1);
                                                ("unit_price", VInt 0) ]]);
                       ("subtotal", VFloat x); ("tax", VFloat y); ("total", VFloat z) ]))
           (Some d)
         = (created (fresh_id (next_id d)), Some d')
         ∧ inserted d d' "prescription" p
         ∧ Prescription.items p = [PrescriptionItem.mk medicine_id None 1 0]
         ∧ Prescription.subtotal p = x
         ∧ Prescription.tax p = y
         ∧ Prescription.total p = z)
  ∧ (∀ p d, Prescription.validate (VDict body) = Valid p → failure d = None →
       (∀ x, holds_float body "subtotal" x → Prescription.subtotal p = x)
       ∧ (∀ x, holds_float body "tax" x → Prescription.tax p = x)
       ∧ (∀ x, holds_float body "total" x → Prescription.total p = x)
       ∧ ∃ d', route environ (POST_prescriptions (VDict body)) (Some d)
               = (created (fresh_id (next_id d)), Some d')
               ∧ inserted d d' "prescription" p
               ∧ dict_get "subtotal" (stored (fresh_id (next_id d), p))
                 = Some (VFloat (Prescription.subtotal p))
               ∧ dict_get "tax" (stored (fresh_id (next_id d), p))
                 = Some (VFloat (Prescription.tax p))
               ∧ dict_get "total" (stored (fresh_id (next_id d), p))
                 = Some (VFloat (Prescription.total p))).
Proof.
  split; [|split; [|split]].
  - intros items item Hitems Hitem Hzero.
    unfold route, with_body, Prescription.validate, model.
    destruct (Prescription.fields body) as [p|loc msg] eqn:Hp; [|by eexists _, _].
    exfalso. pose proof (items_valid _ _ _ Hp Hitems) as Hall.
    apply list_elem_of_lookup in Hitem as [k Hk].
    destruct (Forall2_lookup_l _ _ _ _ _ Hall Hk) as (i & _ & Hi).
    apply accepted_quantity in Hi as [Hone Hread].
    rewrite (Hread item 0%Z eq_refl Hzero) in Hone. lia.
  - intros p. apply accepted_items.
  - intros patient_name medicine_id x y z d Hx%Qle_bool_iff Hy%Qle_bool_iff
      Hz%Qle_bool_iff Hd.
    match goal with
    | |- context [POST_prescriptions (VDict ?b)] => set (free := b)
    end.
    assert (Prescription.validate (VDict free)
            = Valid (Prescription.mk None patient_name None None
                       [PrescriptionItem.mk medicine_id None 1 0] x y z
                       "pending" None)) as Hp.
    { unfold Prescription.validate, model, Prescription.fields, field. simpl.
      unfold ge_float. by rewrite Hx, Hy, Hz. }
    destruct (post_prescription environ free _ d Hp Hd) as (d' & Hroute & Hins).
    by eexists _, d'.
  - intros p d Hp Hd.
    pose proof Hp as (_ & Hsub & Htax & Htot)%Prescription_fields_valid.
    split; [intros x; by apply (supplied_float _ _ _ _ _ _ Hsub)|].
    split; [intros x; by apply (supplied_float _ _ _ _ _ _ Htax)|].
    split; [intros x; by apply (supplied_float _ _ _ _ _ _ Htot)|].
    destruct (post_prescription environ _ _ d Hp Hd) as (d' & Hroute & Hins).
    by exists d'.
Qed.

(** The statement at a body whose item has quantity 0, and at a body whose
    item has quantity 1 and unit price 0 under a subtotal of 999. *)
Lemma prescription_validation_witness :
  (∃ loc msg,
     @route strict bare no_environ
       (POST_prescriptions
          (VDict [ ("patient_name", VStr "Pat");
                   ("items", VList [VDict [ ("medicine_id", VStr "0");
                                            ("quantity", VInt 0);
                                            ("unit_price", VInt 5) ]]) ]))
       (Some empty_db)
     = (Rejected loc msg, Some empty_db))
  ∧ (∃ p d',
       @route strict bare no_environ
         (POST_prescriptions
            (VDict [ ("patient_name", VStr "Pat");
                     ("items", VList [VDict [ ("medicine_id", VStr "0");
                                              ("quantity", VInt 1);
                                              ("unit_price", VInt 0) ]]);
                     ("subtotal", VFloat 999); ("tax", VFloat 0); ("total", VFloat 999) ]))
         (Some empty_db)
       = (created (fresh_id (next_id empty_db)), Some d')
       ∧ inserted empty_db d' "prescription" p
       ∧ Prescription.items p = [PrescriptionItem.mk "0" None 1 0]
       ∧ Prescription.subtotal p = 999%Q
       ∧ Prescription.tax p = 0%Q
       ∧ Prescription.total p = 999%Q).
Proof.
  split.
  - refine (proj1 (@prescription_validation strict bare no_environ _ (Some empty_db))
                  [VDict [ ("medicine_id", VStr "0"); ("quantity", VInt 0);
                           ("unit_price", VInt 5) ]]
                  [ ("medicine_id", VStr "0"); ("quantity", VInt 0);
                    ("unit_price", VInt 5) ] _ _ _).
    + reflexivity.
    + by left.
    + by exists (VInt 0).
  - refine (proj1 (proj2 (proj2
              (@prescription_validation strict bare no_environ [] None)))
                  "Pat" "0" 999%Q 0%Q 999%Q empty_db _ _ _ _); done.
Defined.

(* ===================================================================== *)
(** * Prescriptions without items *)
(* ===================================================================== *)

(** C10.  A body for [POST /api/prescriptions] that leaves [items] out, or
    gives it as the empty list, is accepted and stored with an empty item
    list, provided [patient_name] is there (a string); this for every such
    body whose other fields are absent or valid, against a reachable
    store.  [items] defaults to the empty list and has no minimum
    length. *)
Theorem empty_items_accepted `{Pydantic} `{Store} environ (body : dict)
    patient_name d :
  dict_get "items" body = None ∨ dict_get "items" body = Some (VList []) →
  dict_get "patient_name" body = Some (VStr patient_name) →
  rest_valid body →
  failure d = None →
  ∃ p d',
    Prescription.validate (VDict body) = Valid p
    ∧ Prescription.items p = []
    ∧ Prescription.patient_name p = patient_name
    ∧ route environ (POST_prescriptions (VDict body)) (Some d)
      = (created (fresh_id (next_id d)), Some d')
    ∧ inserted d d' "prescription" p
    ∧ dict_get "items" (stored (fresh_id (next_id d), p)) = Some (VList []).
Proof.
  intros Hitems Hname
    ([number Hnumber] & [phone Hphone] & [doctor Hdoctor] & [subtotal Hsubtotal]
     & [tax Htax] & [total Htotal] & [status Hstatus] & [method Hmethod]) Hd.
  assert (field body "items" (List_type (model_type PrescriptionItem.validate))
                (Some []) unconstrained = Valid []) as Hfield.
  { unfold field. by destruct Hitems as [-> | ->]. }
  assert (field body "patient_name" str_type None unconstrained = Valid patient_name)
    as Hpatient.
  { unfold field. by rewrite Hname. }
  assert (Prescription.validate (VDict body)
          = Valid (Prescription.mk number patient_name phone doctor [] subtotal
                                   tax total status method)) as Hp.
  { unfold Prescription.validate, model, Prescription.fields.
    by rewrite Hnumber, Hpatient, Hphone, Hdoctor, Hfield, Hsubtotal, Htax,
      Htotal, Hstatus, Hmethod. }
  destruct (post_prescription environ body _ d Hp Hd) as (d' & Hroute & Hins).
  by eexists _, d'.
Qed.

(** The statement at the body that holds a patient name and nothing else,
    and at the same body with an empty item list. *)
Lemma empty_items_accepted_witness :
  (∃ p d',
     @Prescription.validate strict (VDict [("patient_name", VStr "Pat")]) = Valid p
     ∧ Prescription.items p = []
     ∧ Prescription.patient_name p = "Pat"
     ∧ @route strict bare no_environ
              (POST_prescriptions (VDict [("patient_name", VStr "Pat")])) (Some empty_db)
       = (created (fresh_id (next_id empty_db)), Some d')
     ∧ inserted empty_db d' "prescription" p
     ∧ dict_get "items" (stored (fresh_id (next_id empty_db), p)) = Some (VList []))
  ∧ (∃ p d',
       @Prescription.validate strict
          (VDict [("patient_name", VStr "Pat"); ("items", VList [])]) = Valid p
       ∧ Prescription.items p = []
       ∧ Prescription.patient_name p = "Pat"
       ∧ @route strict bare no_environ
                (POST_prescriptions
                   (VDict [("patient_name", VStr "Pat"); ("items", VList [])]))
                (Some empty_db)
         = (created (fresh_id (next_id empty_db)), Some d')
       ∧ inserted empty_db d' "prescription" p
       ∧ dict_get "items" (stored (fresh_id (next_id empty_db), p)) = Some (VList [])).
Proof.
  split.
  - apply (@empty_items_accepted strict bare no_environ
             [("patient_name", VStr "Pat")] "Pat" empty_db).
    + by left.
    + reflexivity.
    + repeat split; by eexists.
    + reflexivity.
  - apply (@empty_items_accepted strict bare no_environ
             [("patient_name", VStr "Pat"); ("items", VList [])] "Pat" empty_db).
    + by right.
    + reflexivity.
    + repeat split; by eexists.
    + reflexivity.
Defined.

(* ===================================================================== *)
(** * The diagnostics endpoint *)
(* ===================================================================== *)

Lemma str_prefix_length n s : String.length (str_prefix n s) ≤ n.
Proof.
  revert s. induction n as [|n IH]; intros [|c s]; simpl; try lia.
  specialize (IH s). lia.
Qed.

(** What [test_database] returns in each state of the connection. *)
Lemma test_database_returns environ db :
  ∃ response,
    test_database environ db = Return (VDict response)
    ∧ match db with
      | None =>
          dict_get "connection_status" response = Some (VStr "Not Connected")
          ∧ dict_get "database" response = Some (VStr "❌ Not Available")
      | Some d =>
          dict_get "connection_status" response = Some (VStr "Connected")
          ∧ match list_collection_names d with
            | Return names =>
                dict_get "database" response = Some (VStr "✅ Connected & Working")
                ∧ dict_get "collections" response
                  = Some (VList (VStr <$> take 10 names))
            | Raise e =>
                dict_get "database" response
                = Some (VStr ("⚠️ Connected but Error: " +:+ str_prefix 80 (exn_str e)))
                ∧ dict_get "collections" response = Some (VList [])
            end
      end.
Proof.
  unfold test_database, return_response, try_stmt, seq_stmt, assign.
  destruct db as [d|]; simpl; [|by eexists].
  destruct (list_collection_names d) as [names|e]; simpl; by eexists.
Qed.

(** C6.  [GET /test] returns in every state of the connection and never
    raises.  Without a connection the response says "Not Connected"; when
    the probe of a connection fails, the failure is caught and the response
    carries its message, cut to at most 80 characters. *)
Theorem test_database_never_raises `{Pydantic} `{Store} environ (db : db_state) :
  ∃ response,
    test_database environ db = Return (VDict response)
    ∧ app environ GET_test db = (Response 200 (VDict response), db)
    ∧ (db = None →
       dict_get "connection_status" response = Some (VStr "Not Connected"))
    ∧ (∀ d e, db = Some d → list_collection_names d = Raise e →
         dict_get "database" response
         = Some (VStr ("⚠️ Connected but Error: " +:+ str_prefix 80 (exn_str e)))
         ∧ String.length (str_prefix 80 (exn_str e)) ≤ 80)
    ∧ (∀ d msg, db = Some d → failure d = Some msg →
         list_collection_names d = Raise (Exception msg)).
Proof.
  destruct (test_database_returns environ db) as (response & Hreturn & Hstate).
  exists response. split; [done|]. split; [|split; [|split]].
  - unfold app, route, call. by rewrite Hreturn.
  - intros ->. apply Hstate.
  - intros d e -> He. rewrite He in Hstate. split; [apply Hstate|].
    apply str_prefix_length.
  - intros d msg _ Hmsg. unfold list_collection_names. by rewrite Hmsg.
Qed.

(** The endpoint against a store that fails with a message of 100
    characters: the response carries the first 80. *)
Example test_database_unreachable :
  let msg := "0123456789012345678901234567890123456789012345678901234567890123456789012345678901234567890123456789" in
  test_database no_environ
    (Some {| failure := Some msg; next_id := 0; collections := ∅ |})
  = Return (VDict
      [ ("backend", VStr "✅ Running");
        ("database", VStr "⚠️ Connected but Error: 01234567890123456789012345678901234567890123456789012345678901234567890123456789");
        ("database_url", VStr "❌ Not Set");
        ("database_name", VStr "❌ Not Set");
        ("connection_status", VStr "Connected");
        ("collections", VList []) ]).
Proof. by vm_compute. Qed.

(* ===================================================================== *)
(** * The identifier helper *)
(* ===================================================================== *)

Section RouteFacts.
Context `{Pydantic} `{Store}.

(** A computation that raises no [HTTPException]. *)
Definition no_http {A} (r : result A) : Prop :=
  ∀ c detail, r ≠ Raise (HTTPException c detail).

Lemma create_document_no_http {A} `{BaseModel A} collection_name (payload : A) db :
  no_http (create_document collection_name payload db).1.
Proof.
  unfold create_document. intros c detail.
  destruct db as [d|]; [|done]. by destruct (failure d).
Qed.

Lemma get_documents_no_http collection_name filt limit db :
  no_http (compile_query (VDict filt)) →
  no_http (get_documents collection_name filt limit db).1.
Proof.
  unfold get_documents. intros Hq c detail.
  destruct db as [d|]; [|done]. destruct (failure d); [done|].
  specialize (Hq c detail).
  destruct (compile_query (VDict filt)) as [p|e]; [done|].
  simpl. intros [= ->]. by apply Hq.
Qed.

Lemma list_medicines_filt_no_http q low_stock :
  no_http (compile_query (VDict (list_medicines_filt q low_stock))).
Proof.
  intros c detail. destruct q as [[|a q]|], low_stock as [[|]|]; simpl; try done;
    by destruct (Regex.compile (String a q) "i").
Qed.

Lemma list_staff_filt_no_http role active :
  no_http (compile_query (VDict (list_staff_filt role active))).
Proof. intros c detail. by destruct role as [[|a r]|], active as [b|]. Qed.

Lemma bind_no_http {A B} (h : io A) (f : A → B) db :
  no_http (h db).1 → no_http ((x ← h; mret (f x)) db).1.
Proof.
  intros Hh c detail. unfold mbind, io_bind. specialize (Hh c detail).
  destruct (h db) as [[a|e] db']; simpl in *; [done|].
  intros [= ->]. by apply Hh.
Qed.

(** No route raises an [HTTPException]. *)
Lemma route_no_http environ r db c detail :
  (route environ r db).1 ≠ Handled (Raise (HTTPException c detail)).
Proof.
  assert (∀ (h : io value) db, no_http (h db).1 →
            (call h db).1 ≠ Handled (Raise (HTTPException c detail))) as Hcall.
  { intros h db' Hh. unfold call. specialize (Hh c detail).
    destruct (h db') as [[v|e] db'']; simpl in *; congruence. }
  assert (∀ A (validate : value → validated A) body (h : A → io value) db,
            (∀ a, no_http (h a db).1) →
            (with_body validate body h db).1
            ≠ Handled (Raise (HTTPException c detail))) as Hbody.
  { intros A validate body h db' Hh. unfold with_body.
    destruct (validate body) as [a|loc msg]; [|done]. specialize (Hh a c detail).
    destruct (h a db') as [[v|e] db'']; simpl in *; congruence. }
  destruct r; simpl.
  - done.
  - done.
  - destruct (test_database_returns environ db) as (response & -> & _). done.
  - apply Hbody. intros a. apply bind_no_http, create_document_no_http.
  - apply Hcall, bind_no_http, get_documents_no_http, list_medicines_filt_no_http.
  - apply Hbody. intros a. apply bind_no_http, create_document_no_http.
  - apply Hcall, bind_no_http, get_documents_no_http.
    intros c' detail'. by destruct status as [[|a s]|].
  - apply Hbody. intros a. apply bind_no_http, create_document_no_http.
  - apply Hcall, bind_no_http, get_documents_no_http, list_staff_filt_no_http.
  - apply Hbody. intros a. apply bind_no_http, create_document_no_http.
  - apply Hcall, bind_no_http, get_documents_no_http.
    intros c' detail'. destruct q as [[|a q]|]; simpl; try done.
    by destruct (Regex.compile (String a q) "i").
Qed.

End RouteFacts.

(** C8, as amended.  [to_object_id] returns the native identifier when the
    identifier library takes the string, and otherwise fails with the client
    error 400 whose message is "Invalid id format", whatever the library
    raised.  No route calls the helper: no request is answered with that
    error, no route raises an [HTTPException] at all, and no answer has
    status 400. *)
Theorem to_object_id_dichotomy `{Bson} `{Pydantic} `{Store} id_str :
  ((∃ oid, ObjectId_new id_str = Return oid ∧ to_object_id id_str = Return oid)
   ∨ ((∃ e, ObjectId_new id_str = Raise e)
      ∧ to_object_id id_str = Raise (HTTPException 400 "Invalid id format")))
  ∧ (∀ environ r db,
       (route environ r db).1 ≠ Handled (Raise (HTTPException 400 "Invalid id format"))
       ∧ (∀ c detail, (route environ r db).1 ≠ Handled (Raise (HTTPException c detail)))
       ∧ (∀ content, (app environ r db).1 ≠ Response 400 content)).
Proof.
  split.
  - unfold to_object_id, try_except.
    destruct (ObjectId_new id_str) as [oid|e]; [left|right]; eauto.
  - intros environ r db. split; [apply route_no_http|]. split.
    + intros c detail. apply route_no_http.
    + intros content. unfold app.
      pose proof (λ c detail, route_no_http environ r db c detail) as Hroute.
      destruct (route environ r db) as [[loc msg|[v|[c detail|msg]]] db'];
        simpl in *; try done.
      by destruct (Hroute c detail).
Qed.

(** C8 as stated fails on the message: the helper's error reads
    "Invalid id format", with a capital. *)
Lemma invalid_id_message :
  @ObjectId_new hex24 "not-an-id" = Raise (Exception "not-an-id is not a valid ObjectId")
  ∧ @to_object_id hex24 "not-an-id" = Raise (HTTPException 400 "Invalid id format")
  ∧ @to_object_id hex24 "not-an-id" ≠ Raise (HTTPException 400 "invalid id format").
Proof. split; [by vm_compute|]. split; [by vm_compute|]. by vm_compute. Qed.

(** The helper on a string of 24 hexadecimal digits. *)
Example to_object_id_hex :
  @to_object_id hex24 "0123456789abcdef01234567" = Return "0123456789abcdef01234567".
Proof. by vm_compute. Qed.

(* ===================================================================== *)
(** * Remarks *)
(* ===================================================================== *)

(** A role given as the empty string is no role: [list_staff] tests the
    truthiness of [role]. *)
Remark empty_role_is_no_role `{Pydantic} `{Store} environ active limit db :
  route environ (GET_staff (Some "") active limit) db
  = route environ (GET_staff None active limit) db.
Proof. reflexivity. Qed.

(** So is a search term given as the empty string, and every medicine is
    selected, as the empty string occurs in every name. *)
Remark empty_term_is_no_term `{Pydantic} `{Store} environ low_stock limit db :
  route environ (GET_medicines (Some "") low_stock limit) db
  = route environ (GET_medicines None low_stock limit) db.
Proof. reflexivity. Qed.

(* ===================================================================== *)
(** * Further properties: vocabulary *)
(* ===================================================================== *)

(** The search term occurs in the name or in the contact name of a
    supplier. *)
Definition supplier_occurs (q : string) (s : Supplier.t) : Prop :=
  Regex.ci_substring q (Supplier.name s) ∨ occurs_in q (Supplier.contact_name s).

#[export] Instance supplier_occurs_dec q s : Decision (supplier_occurs q s).
Proof. unfold supplier_occurs. apply _. Defined.

(** The restriction [list_prescriptions] draws from [status]: an exact match
    with a status that is given and not empty, none otherwise. *)
Definition status_is (status : option string) (p : Prescription.t) : Prop :=
  match status with
  | Some (String _ _ as s) => Prescription.status p = s
  | _ => True
  end.

#[export] Instance status_is_dec status p : Decision (status_is status p).
Proof. destruct status as [[|c s]|]; simpl; apply _. Defined.

(** Two suppliers and three prescriptions. *)
Definition acme : Supplier.t :=
  Supplier.mk "Acme Pharma" (Some "Joan") None None None None.
Definition zenith : Supplier.t :=
  Supplier.mk "Zenith" None (Some "joan-555") None None None.
Definition the_suppliers : list (string * Supplier.t) := [("0", acme); ("1", zenith)].

Definition rx (status : string) : Prescription.t :=
  Prescription.mk None "Pat" None None [] 0 0 0 status None.
Definition the_prescriptions : list (string * Prescription.t) :=
  [("0", rx "pending"); ("1", rx "dispensed"); ("2", rx "pending")].

(* ===================================================================== *)
(** * Suppliers: the search term *)
(* ===================================================================== *)

Section SupplierFacts.
Context `{Pydantic} `{Store}.

Lemma filter_all {A} (l : list A) : List.filter (λ _, true) l = l.
Proof. induction l as [|x l IH]; [done|]. simpl. by rewrite IH. Qed.

Lemma filter_always {A} (P : A → Prop) `{∀ x, Decision (P x)} (l : list A) :
  (∀ x, x ∈ l → P x) → filter P l = l.
Proof.
  intros HP. rewrite <-(filter_reflect (λ _, true)); [apply filter_all|].
  intros x Hx. split; [intros _; by apply HP|done].
Qed.

Lemma filter_never {A} (P : A → Prop) `{∀ x, Decision (P x)} (l : list A) :
  (∀ x, x ∈ l → ¬ P x) → filter P l = [].
Proof.
  induction l as [|x l IH]; intros HP; [done|].
  rewrite filter_cons, decide_False by (apply HP; by left).
  apply IH. intros y Hy. apply HP. by right.
Qed.

(** A list route whose filter is empty answers the first documents of the
    collection. *)
Lemma read_route_all collection_name limit d docs :
  holds d collection_name docs →
  call (documents_value
          (get_documents collection_name [] (param limit (Some 100%Z)))) (Some d)
  = (listing (take (limit_of limit) docs), Some d).
Proof.
  intros Hd.
  rewrite (read_route collection_name [] limit d docs (λ _, true) Hd eq_refl).
  by rewrite filter_all.
Qed.

End SupplierFacts.

(** X1.  For a search term of ordinary characters, [GET /api/suppliers]
    answers, in store order and up to the limit in force, the stored
    suppliers in whose name or contact name the term occurs up to case; the
    other fields of a supplier are not searched.  Without a term it answers
    the first suppliers of the store. *)
Theorem supplier_search_listing `{Pydantic} `{Store} environ q limit d
    (ss : list (string * Supplier.t)) :
  plain_term q →
  holds d "supplier" (stored <$> ss) →
  route environ (GET_suppliers (Some q) limit) (Some d)
  = (listing (stored <$> take (limit_of limit)
                           (filter (λ x, supplier_occurs q x.2) ss)), Some d)
  ∧ route environ (GET_suppliers None limit) (Some d)
    = (listing (stored <$> take (limit_of limit) ss), Some d).
Proof.
  intros Hq Hd. split.
  - destruct q as [|c q].
    + change (route environ (GET_suppliers (Some "") limit) (Some d))
        with (call (documents_value
                      (get_documents "supplier" [] (param limit (Some 100%Z))))
                   (Some d)).
      rewrite (read_route_all _ _ _ _ Hd), fmap_take. do 4 f_equal.
      symmetry. apply filter_always. intros x _. left.
      apply ci_substring_empty.
    + assert (∃ p,
        compile_query
          (VDict [("$or", VList [ VDict [("name", regex_i (String c q))];
                                  VDict [("contact_name", regex_i (String c q))] ])])
        = Return p
        ∧ ∀ x : string * Supplier.t,
            p (stored x) = true ↔ supplier_occurs (String c q) x.2)
        as (p & Hp & Hocc).
      { simpl. rewrite (compile_plain _ Hq). simpl. eexists; split; [done|].
        intros [id s]. cbn beta. unfold supplier_occurs, occurs_in.
        rewrite !andb_true_r, orb_false_r, !orb_true_iff.
        change (dict_get "name" (stored (id, s)))
          with (Some (VStr (Supplier.name s))).
        change (dict_get "contact_name" (stored (id, s)))
          with (Some (dump_option VStr (Supplier.contact_name s))).
        simpl. rewrite (search_ci_substring (String c q)).
        destruct (Supplier.contact_name s); simpl;
          rewrite ?(search_ci_substring (String c q)); intuition congruence. }
      change (route environ (GET_suppliers (Some (String c q)) limit) (Some d))
        with (call (documents_value
                      (get_documents "supplier"
                         [("$or", VList [ VDict [("name", regex_i (String c q))];
                                          VDict [("contact_name", regex_i (String c q))] ])]
                         (param limit (Some 100%Z)))) (Some d)).
      rewrite (read_route _ _ _ _ _ p Hd Hp). do 3 f_equal.
      apply read_stored. intros x _. apply Hocc.
  - change (route environ (GET_suppliers None limit) (Some d))
      with (call (documents_value
                    (get_documents "supplier" [] (param limit (Some 100%Z))))
                 (Some d)).
    by rewrite (read_route_all _ _ _ _ Hd), fmap_take.
Qed.

(** The statement for the term ["JOAN"]: it occurs in the contact name of
    one supplier, and in the phone number of the other, which is not
    searched. *)
Lemma supplier_search_listing_witness :
  @route strict bare no_environ (GET_suppliers (Some "JOAN") None)
         (Some (store_of "supplier" (stored <$> the_suppliers)))
  = (listing [stored ("0", acme)],
     Some (store_of "supplier" (stored <$> the_suppliers))).
Proof.
  etransitivity.
  - refine (proj1 (@supplier_search_listing strict bare no_environ "JOAN" None
                     (store_of "supplier" (stored <$> the_suppliers))
                     the_suppliers _ _)).
    + by vm_compute.
    + split; by vm_compute.
  - by vm_compute.
Defined.

(* ===================================================================== *)
(** * Prescriptions: the status filter *)
(* ===================================================================== *)

(** X2.  [GET /api/prescriptions] answers, in store order and up to the
    limit in force, the stored prescriptions whose status is exactly the
    one given; a status left out or given empty restricts nothing.  The
    status given is not checked against the three statuses of the model: an
    unknown one, the store holding validated prescriptions, answers the empty
    list and no error. *)
Theorem prescription_status_listing `{Pydantic} `{Store} environ status limit d
    (ps : list (string * Prescription.t)) :
  holds d "prescription" (stored <$> ps) →
  route environ (GET_prescriptions status limit) (Some d)
  = (listing (stored <$> take (limit_of limit)
                           (filter (λ x, status_is status x.2) ps)), Some d)
  ∧ (∀ c s, status = Some (String c s) →
       String c s ∉ Prescription.statuses →
       Forall (λ x, Prescription.status x.2 ∈ Prescription.statuses) ps →
       route environ (GET_prescriptions status limit) (Some d)
       = (listing [], Some d)).
Proof.
  intros Hd.
  assert (route environ (GET_prescriptions status limit) (Some d)
          = (listing (stored <$> take (limit_of limit)
                                   (filter (λ x, status_is status x.2) ps)), Some d))
    as Hroute.
  { destruct status as [[|c s]|].
    - change (route environ (GET_prescriptions (Some "") limit) (Some d))
        with (call (documents_value
                      (get_documents "prescription" [] (param limit (Some 100%Z))))
                   (Some d)).
      rewrite (read_route_all _ _ _ _ Hd), fmap_take. do 4 f_equal.
      symmetry. by apply filter_always.
    - change (route environ (GET_prescriptions (Some (String c s)) limit) (Some d))
        with (call (documents_value
                      (get_documents "prescription" [("status", VStr (String c s))]
                                     (param limit (Some 100%Z)))) (Some d)).
      erewrite (read_route _ _ _ _ _ _ Hd); [|reflexivity]. do 3 f_equal.
      apply read_stored. intros [id p] _. cbn beta.
      change (dict_get "status" (stored (id, p)))
        with (Some (VStr (Prescription.status p))).
      unfold on_field, scalar_eqb, status_is. cbn [snd].
      rewrite andb_true_r, String.eqb_eq. split; congruence.
    - change (route environ (GET_prescriptions None limit) (Some d))
        with (call (documents_value
                      (get_documents "prescription" [] (param limit (Some 100%Z))))
                   (Some d)).
      rewrite (read_route_all _ _ _ _ Hd), fmap_take. do 4 f_equal.
      symmetry. by apply filter_always. }
  split; [done|]. intros c s -> Hunknown Hvalid. rewrite Hroute.
  replace (filter (λ x, status_is (Some (String c s)) x.2) ps) with
    (@nil (string * Prescription.t)); [by rewrite take_nil|].
  symmetry. apply filter_never. intros x Hx Hs.
  rewrite Forall_forall in Hvalid. specialize (Hvalid x Hx). simpl in Hs.
  by rewrite Hs in Hvalid.
Qed.

(** The statement for the status ["pending"] among three prescriptions, and
    for the status ["Pending"], which is none of the model's. *)
Lemma prescription_status_listing_witness :
  @route strict bare no_environ (GET_prescriptions (Some "pending") None)
         (Some (store_of "prescription" (stored <$> the_prescriptions)))
  = (listing [stored ("0", rx "pending"); stored ("2", rx "pending")],
     Some (store_of "prescription" (stored <$> the_prescriptions)))
  ∧ @route strict bare no_environ (GET_prescriptions (Some "Pending") None)
           (Some (store_of "prescription" (stored <$> the_prescriptions)))
    = (listing [], Some (store_of "prescription" (stored <$> the_prescriptions))).
Proof.
  split.
  - etransitivity.
    + refine (proj1 (@prescription_status_listing strict bare no_environ
                       (Some "pending") None
                       (store_of "prescription" (stored <$> the_prescriptions))
                       the_prescriptions _)).
      split; by vm_compute.
    + by vm_compute.
  - refine (proj2 (@prescription_status_listing strict bare no_environ
                     (Some "Pending") None
                     (store_of "prescription" (stored <$> the_prescriptions))
                     the_prescriptions _) "P"%char "ending" eq_refl _ _).
    + split; by vm_compute.
    + apply (bool_decide_eq_false_1 ("Pending" ∈ Prescription.statuses)).
      by vm_compute.
    + repeat constructor;
        apply (bool_decide_eq_true_1 (_ ∈ Prescription.statuses)); by vm_compute.
Defined.

(* ===================================================================== *)
(** * Staff: a role that is none of the model's *)
(* ===================================================================== *)

(** X3.  The role filter is an exact, case-sensitive match and the role
    given is not checked against the four roles of the model: for a role
    that is none of them (["admin"], say), the store holding validated
    staff, [GET /api/staff] answers the empty list and no error, whatever
    [active] is. *)
Theorem unknown_role_lists_nobody `{Pydantic} `{Store} environ role active limit d
    (ss : list (string * Staff.t)) :
  role ≠ "" →
  role ∉ Staff.roles →
  Forall (λ x, Staff.role x.2 ∈ Staff.roles) ss →
  holds d "staff" (stored <$> ss) →
  route environ (GET_staff (Some role) active limit) (Some d) = (listing [], Some d).
Proof.
  intros Hrole Hunknown Hvalid Hd.
  assert (Some role ≠ Some "") as Hsome by congruence.
  destruct (staff_query (Some role) active Hsome) as (p & Hp & Hsel).
  transitivity
    (call (documents_value
             (get_documents "staff" (list_staff_filt (Some role) active)
                            (param limit (Some 100%Z)))) (Some d));
    [by destruct active|].
  rewrite (read_route _ _ _ _ _ p Hd Hp).
  rewrite (read_stored (λ x, role_is (Some role) x.2 ∧ active_is active x.2) p ss
             (limit_of limit) (λ x _, Hsel x)).
  replace (filter (λ x, role_is (Some role) x.2 ∧ active_is active x.2) ss)
    with (@nil (string * Staff.t)); [by rewrite take_nil|].
  symmetry. apply filter_never. intros x Hx [Hr _].
  rewrite Forall_forall in Hvalid. specialize (Hvalid x Hx). simpl in Hr.
  by rewrite Hr in Hvalid.
Qed.

(** The statement for the role ["admin"] among three members of staff, two
    of whom are of role ["Admin"]. *)
Lemma unknown_role_lists_nobody_witness :
  @route strict bare no_environ (GET_staff (Some "admin") None None)
         (Some (store_of "staff" (stored <$> the_staff)))
  = (listing [], Some (store_of "staff" (stored <$> the_staff))).
Proof.
  apply (@unknown_role_lists_nobody strict bare no_environ "admin" None None
           (store_of "staff" (stored <$> the_staff)) the_staff).
  - done.
  - apply (bool_decide_eq_false_1 ("admin" ∈ Staff.roles)). by vm_compute.
  - repeat constructor;
      apply (bool_decide_eq_true_1 (_ ∈ Staff.roles)); by vm_compute.
  - split; by vm_compute.
Defined.

(* ===================================================================== *)
(** * Validation: the other models *)
(* ===================================================================== *)

(** What an optional string field may hold: nothing, null or a string. *)
Definition optional_str (o : option value) : Prop :=
  o = None ∨ o = Some VNone ∨ ∃ s, o = Some (VStr s).

(** The field names of the four models. *)
Definition Medicine_names : list string :=
  ["name"; "generic_name"; "category"; "manufacturer"; "sku"; "batch_number";
   "expiry_date"; "price"; "cost_price"; "stock"; "reorder_level"; "unit";
   "taxable"; "tax_rate"; "notes"].
Definition Prescription_names : list string :=
  ["number"; "patient_name"; "patient_phone"; "doctor_name"; "items"; "subtotal";
   "tax"; "total"; "status"; "payment_method"].
Definition Staff_names : list string := ["name"; "email"; "role"; "phone"; "is_active"].
Definition Supplier_names : list string :=
  ["name"; "contact_name"; "phone"; "email"; "address"; "gst_number"].
Definition Supplier_optional : list string :=
  ["contact_name"; "phone"; "email"; "address"; "gst_number"].

(** Splits the hypothesis that the fields of a body validate into one
    equation per field. *)
Ltac split_fields Hm :=
  repeat match type of Hm with
         | context [mbind _ (field ?b ?n ?t ?d ?c)] =>
             let E := fresh "Hfield" in
             destruct (field b n t d c) eqn:E; simpl in Hm; [|discriminate Hm]
         end;
  injection Hm as <-.

(** Picks the equation of the field of the given name. *)
Ltac field_of n tac :=
  match goal with
  | E : field _ n _ _ _ = Valid _ |- _ => tac E
  end.

Section ModelFacts.
Context `{Pydantic}.

Lemma field_missing {A} b n (type : value → option A) c :
  dict_get n b = None → field b n type None c = Invalid n "Field required".
Proof. intros Hn. unfold field. by rewrite Hn. Qed.

Lemma field_default {A} b n (type : value → option A) d c a :
  dict_get n b = None → field b n type (Some d) c = Valid a → a = d.
Proof. intros Hn. unfold field. rewrite Hn. by intros [= <-]. Qed.

Lemma field_str b n d s :
  field b n str_type d unconstrained = Valid s →
  dict_get n b = Some (VStr s) ∨ (dict_get n b = None ∧ d = Some s).
Proof.
  intros [[? ?]|(v & Hv & Hs & _)]%field_valid; [by right|left].
  destruct v; try done. simpl in Hs. congruence.
Qed.

(** An optional string field validates exactly on nothing, null and
    strings, and reads what it holds. *)
Lemma field_optional_str b n o :
  field b n (Optional str_type) (Some None) unconstrained = Valid o
  ↔ (dict_get n b = None ∧ o = None)
    ∨ (dict_get n b = Some VNone ∧ o = None)
    ∨ (∃ s, dict_get n b = Some (VStr s) ∧ o = Some s).
Proof.
  split.
  - intros [[Hn [= <-]]|(v & Hv & Ht & _)]%field_valid; [by left|].
    destruct v; simpl in Ht; try done; injection Ht as <-.
    + right; left. done.
    + right; right. by eexists.
  - intros [[Hn ->]|[[Hn ->]|(s & Hn & ->)]]; unfold field; by rewrite Hn.
Qed.

Lemma field_optional_str_dump b n o :
  field b n (Optional str_type) (Some None) unconstrained = Valid o →
  dump_option VStr o = default VNone (dict_get n b).
Proof.
  intros [[-> ->]|[[-> ->]|(s & -> & ->)]]%field_optional_str; done.
Qed.

Lemma field_optional_str_valid b n :
  is_valid (field b n (Optional str_type) (Some None) unconstrained)
  ↔ optional_str (dict_get n b).
Proof.
  unfold is_valid, optional_str. split.
  - intros [o [[? _]|[[? _]|(s & ? & _)]]%field_optional_str]; eauto.
  - intros [Hn|[Hn|[s Hn]]]; eexists; apply field_optional_str; eauto.
Qed.

End ModelFacts.

(** X4.  A member of staff that validation accepts has one of the four
    roles; the role left out is ["Sales"] and [is_active] left out is true;
    name and email are the strings of the body, and any two strings do: the
    email is not checked for its form.  A body without a name or without an
    email is rejected, the route answers 422 and the store is as it was. *)
Theorem staff_validation `{Pydantic} `{Store} environ (body : dict) db :
  (∀ s, Staff.validate (VDict body) = Valid s →
     Staff.role s ∈ Staff.roles
     ∧ (dict_get "role" body = None → Staff.role s = "Sales")
     ∧ (dict_get "is_active" body = None → Staff.is_active s = true)
     ∧ dict_get "name" body = Some (VStr (Staff.name s))
     ∧ dict_get "email" body = Some (VStr (Staff.email s)))
  ∧ (dict_get "name" body = None ∨ dict_get "email" body = None →
     ∃ loc msg content,
       route environ (POST_staff (VDict body)) db = (Rejected loc msg, db)
       ∧ app environ (POST_staff (VDict body)) db = (Response 422 content, db))
  ∧ (∀ name email,
       Staff.validate (VDict [("name", VStr name); ("email", VStr email)])
       = Valid (Staff.mk name email "Sales" None true)).
Proof.
  split; [|split].
  - intros s Hs. unfold Staff.validate, model, Staff.fields in Hs. split_fields Hs.
    simpl. split; [|split; [|split; [|split]]].
    + field_of "role" ltac:(fun E =>
        apply field_valid in E as [[_ [= <-]]|(v & _ & Hl%Literal_sound & _)]).
      * by apply (bool_decide_eq_true_1 ("Sales" ∈ Staff.roles)).
      * apply Hl.
    + intros Hn. field_of "role" ltac:(fun E => by apply (field_default _ _ _ _ _ _ Hn) in E).
    + intros Hn.
      field_of "is_active" ltac:(fun E => by apply (field_default _ _ _ _ _ _ Hn) in E).
    + field_of "name" ltac:(fun E => by apply field_str in E as [?|[_ ?]]).
    + field_of "email" ltac:(fun E => by apply field_str in E as [?|[_ ?]]).
  - intros Hmissing. unfold app, route, with_body, Staff.validate, model.
    destruct (Staff.fields body) as [s|loc msg] eqn:Hs; [|by eexists _, _, _].
    exfalso. unfold Staff.fields in Hs. split_fields Hs.
    destruct Hmissing as [Hn|Hn].
    + field_of "name" ltac:(fun E => by rewrite (field_missing _ _ _ _ Hn) in E).
    + field_of "email" ltac:(fun E => by rewrite (field_missing _ _ _ _ Hn) in E).
  - done.
Qed.

(** The statement at a body that gives a name and an email, and at a body
    without an email. *)
Lemma staff_validation_witness :
  (Staff.role (Staff.mk "Ada" "not an address" "Sales" None true) ∈ Staff.roles
   ∧ Staff.is_active (Staff.mk "Ada" "not an address" "Sales" None true) = true)
  ∧ ∃ loc msg content,
      @route strict bare no_environ (POST_staff (VDict [("name", VStr "Ada")]))
             (Some empty_db)
      = (Rejected loc msg, Some empty_db)
      ∧ @app strict bare no_environ (POST_staff (VDict [("name", VStr "Ada")]))
             (Some empty_db)
        = (Response 422 content, Some empty_db).
Proof.
  split.
  - destruct (proj1 (@staff_validation strict bare no_environ
                       [("name", VStr "Ada"); ("email", VStr "not an address")]
                       (Some empty_db))
                    _ eq_refl) as (Hrole & _ & Hactive & _).
    split; [exact Hrole|by apply Hactive].
  - apply (proj1 (proj2 (@staff_validation strict bare no_environ
                           [("name", VStr "Ada")] (Some empty_db)))).
    by right.
Defined.

(** X5.  A supplier body is accepted exactly when its name is a string and
    each of its five other fields is left out, null or a string.  The
    accepted supplier, as it is dumped for the store, is the body cut down
    to the six fields of the model, a field left out being null: what the
    caller gave is kept as it is and any other key of the body is dropped. *)
Theorem supplier_validation `{Pydantic} (body : dict) :
  (is_valid (Supplier.validate (VDict body))
   ↔ (∃ name, dict_get "name" body = Some (VStr name))
     ∧ Forall (λ k, optional_str (dict_get k body)) Supplier_optional)
  ∧ (∀ s, Supplier.validate (VDict body) = Valid s →
       ∀ k, dict_get k (Supplier.model_dump s)
            = if bool_decide (k ∈ Supplier_names)
              then Some (default VNone (dict_get k body))
              else None).
Proof.
  split; [split|].
  - intros [s Hs]. unfold Supplier.validate, model, Supplier.fields in Hs.
    split_fields Hs. split.
    + field_of "name" ltac:(fun E => apply field_str in E as [?|[_ ?]]);
        [by eexists|done].
    + unfold Supplier_optional.
      repeat (apply Forall_cons; split;
              [apply field_optional_str_valid; by eexists|]).
      by apply Forall_nil.
  - intros [[name Hname] Hrest]. unfold Supplier_optional in Hrest.
    repeat match goal with
           | Hrest : Forall _ (_ :: _) |- _ =>
               apply Forall_cons in Hrest as [[? ?]%field_optional_str_valid Hrest]
           end.
    assert (field body "name" str_type None unconstrained = Valid name) as Hn
      by (unfold field; by rewrite Hname).
    eexists. unfold Supplier.validate, model, Supplier.fields.
    repeat match goal with
           | E : field _ _ _ _ _ = Valid _ |- _ => rewrite E; clear E; simpl
           end.
    done.
  - intros s Hs k. unfold Supplier.validate, model, Supplier.fields in Hs.
    split_fields Hs.
    repeat match goal with
           | E : field _ _ (Optional str_type) _ _ = Valid _ |- _ =>
               apply field_optional_str_dump in E
           end.
    field_of "name" ltac:(fun E => apply field_str in E as [Hname|[_ ?]]); [|done].
    unfold Supplier.model_dump. cbn -[String.eqb]. case_bool_decide as Hk.
    + unfold Supplier_names in Hk.
      repeat (apply elem_of_cons in Hk as [-> | Hk]); simpl;
        try (by apply elem_of_nil in Hk); rewrite ?Hname; simpl; congruence.
    + repeat match goal with
             | |- context [String.eqb ?n k] =>
                 destruct (String.eqb_spec n k) as [<-|_];
                 [exfalso; apply Hk; by apply (bool_decide_eq_true_1 (n ∈ Supplier_names))|]
             end.
      done.
Qed.

(** The statement at a body with a key that is none of the model's. *)
Lemma supplier_validation_witness :
  dict_get "rating" (Supplier.model_dump (Supplier.mk "Acme" None (Some "555") None None None))
  = None
  ∧ dict_get "phone" (Supplier.model_dump (Supplier.mk "Acme" None (Some "555") None None None))
    = Some (VStr "555").
Proof.
  pose proof (proj2 (@supplier_validation strict
                       [("name", VStr "Acme"); ("phone", VStr "555");
                        ("rating", VInt 5)]) _ eq_refl) as Hdump.
  split; [exact (Hdump "rating")|exact (Hdump "phone")].
Defined.

Lemma Optional_Literal_sound choices v m :
  Optional (Literal choices) v = Some (Some m) → m ∈ choices.
Proof.
  unfold Optional. destruct v; try done.
  destruct (Literal choices (VStr s)) as [m'|] eqn:Hl; [|done].
  intros [= <-]. by apply Literal_sound in Hl as [_ ?].
Qed.

(** The body holds a status that is none of the model's. *)
Definition unknown_status (body : dict) : Prop :=
  ∃ v, dict_get "status" body = Some v ∧ ∀ s, s ∈ Prescription.statuses → v ≠ VStr s.

(** X6.  A prescription that validation accepts has a non-negative
    subtotal, tax and total, one of the three statuses (["pending"] when the
    body gives none), a payment method that is one of the four or none, and
    items of non-negative unit price.  A body with a negative subtotal, tax
    or total, with an unknown status or without a patient name is rejected:
    the route answers 422 and the store is as it was. *)
Theorem prescription_invariant `{Pydantic} `{Store} environ (body : dict) db :
  (∀ p, Prescription.validate (VDict body) = Valid p →
     (0 <= Prescription.subtotal p)%Q
     ∧ (0 <= Prescription.tax p)%Q
     ∧ (0 <= Prescription.total p)%Q
     ∧ Prescription.status p ∈ Prescription.statuses
     ∧ (dict_get "status" body = None → Prescription.status p = "pending")
     ∧ (∀ m, Prescription.payment_method p = Some m → m ∈ Prescription.payment_methods)
     ∧ Forall (λ i, (0 <= PrescriptionItem.unit_price i)%Q) (Prescription.items p))
  ∧ ((∃ n x, n ∈ ["subtotal"; "tax"; "total"] ∧ holds_float body n x ∧ (x < 0)%Q)
     ∨ unknown_status body
     ∨ dict_get "patient_name" body = None →
     ∃ loc msg content,
       route environ (POST_prescriptions (VDict body)) db = (Rejected loc msg, db)
       ∧ app environ (POST_prescriptions (VDict body)) db = (Response 422 content, db)).
Proof.
  assert (∀ b n x, field b n float_type (Some 0%Q) (ge_float 0) = Valid x → (0 <= x)%Q)
    as Hge.
  { intros b n x [[_ [= <-]]|(v & _ & _ & Hc%ge_float_le)]%field_valid; done. }
  split.
  - intros p Hp. unfold Prescription.validate, model, Prescription.fields in Hp.
    split_fields Hp. simpl.
    split; [field_of "subtotal" ltac:(fun E => by apply Hge in E)|].
    split; [field_of "tax" ltac:(fun E => by apply Hge in E)|].
    split; [field_of "total" ltac:(fun E => by apply Hge in E)|].
    split; [|split; [|split]].
    + field_of "status" ltac:(fun E =>
        apply field_valid in E as [[_ [= <-]]|(v & _ & Hl%Literal_sound & _)]).
      * by apply (bool_decide_eq_true_1 ("pending" ∈ Prescription.statuses)).
      * apply Hl.
    + intros Hn.
      field_of "status" ltac:(fun E => by apply (field_default _ _ _ _ _ _ Hn) in E).
    + intros m Hm.
      field_of "payment_method" ltac:(fun E =>
        apply field_valid in E as [[_ [= ?]]|(v & _ & Hl & _)]); [congruence|].
      apply (Optional_Literal_sound _ v). congruence.
    + field_of "items" ltac:(fun E =>
        apply field_valid in E as [[_ [= <-]]|(v & _ & Hl & _)]); [done|].
      destruct v; try done. simpl in Hl. apply mapM_Some in Hl.
      induction Hl as [|v i l k Hv _ IH]; constructor; [|done].
      unfold model_type, PrescriptionItem.validate, model in Hv.
      destruct v as [| | | | | |b]; try done.
      destruct (PrescriptionItem.fields b) as [i'|] eqn:Hi; [|done].
      injection Hv as <-. unfold PrescriptionItem.fields in Hi. split_fields Hi.
      simpl. field_of "unit_price" ltac:(fun E =>
        by apply field_valid in E as [[_ ?]|(w & _ & _ & Hc%ge_float_le)]).
  - intros Hbad. unfold app, route, with_body, Prescription.validate, model.
    destruct (Prescription.fields body) as [p|loc msg] eqn:Hp; [|by eexists _, _, _].
    exfalso. unfold Prescription.fields in Hp. split_fields Hp.
    destruct Hbad as [(n & x & Hn & Hx & Hneg)|[(v & Hv & Hunknown)|Hmissing]].
    + assert (∀ y, field body n float_type (Some 0%Q) (ge_float 0) = Valid y → False)
        as Hno.
      { intros y Hy. pose proof (Hge _ _ _ Hy) as Hpos.
        rewrite (supplied_float _ _ _ _ _ _ Hy Hx) in Hpos.
        by apply Qlt_not_le in Hneg. }
      repeat (apply elem_of_cons in Hn as [-> | Hn]); [..|by apply elem_of_nil in Hn].
      * field_of "subtotal" ltac:(fun E => by apply Hno in E).
      * field_of "tax" ltac:(fun E => by apply Hno in E).
      * field_of "total" ltac:(fun E => by apply Hno in E).
    + field_of "status" ltac:(fun E =>
        apply field_valid in E as [[? _]|(v' & Hv' & Hl%Literal_sound & _)]);
        [congruence|].
      destruct Hl as [-> Hl]. apply (Hunknown _ Hl). congruence.
    + field_of "patient_name" ltac:(fun E =>
        by rewrite (field_missing _ _ _ _ Hmissing) in E).
Qed.

(** The statement at a body with a negative total. *)
Lemma prescription_invariant_witness :
  ∃ loc msg content,
    @route strict bare no_environ
           (POST_prescriptions (VDict [("patient_name", VStr "Pat"); ("total", VInt (-1))]))
           (Some empty_db)
    = (Rejected loc msg, Some empty_db)
    ∧ @app strict bare no_environ
           (POST_prescriptions (VDict [("patient_name", VStr "Pat"); ("total", VInt (-1))]))
           (Some empty_db)
      = (Response 422 content, Some empty_db).
Proof.
  apply (proj2 (@prescription_invariant strict bare no_environ
                  [("patient_name", VStr "Pat"); ("total", VInt (-1))]
                  (Some empty_db))).
  left. exists "total", (-1)%Q. split; [|split; [by exists (VInt (-1))|done]].
  by apply (bool_decide_eq_true_1 ("total" ∈ ["subtotal"; "tax"; "total"])).
Defined.

(** X7.  A medicine that validation accepts has one of the nine units and
    the name of the body; a field the body leaves out takes the default of
    the model: stock 0, reorder level 10, unit ["unit"], taxable true, tax
    rate 0.  So a medicine posted without stock and reorder level is low on
    stock from the start.  A body without a name or without a price is
    rejected: the route answers 422 and the store is as it was. *)
Theorem medicine_defaults `{Pydantic} `{Store} environ (body : dict) db :
  (∀ m, Medicine.validate (VDict body) = Valid m →
     Medicine.unit m ∈ Medicine.units
     ∧ dict_get "name" body = Some (VStr (Medicine.name m))
     ∧ (dict_get "stock" body = None → Medicine.stock m = 0%Z)
     ∧ (dict_get "reorder_level" body = None → Medicine.reorder_level m = 10%Z)
     ∧ (dict_get "unit" body = None → Medicine.unit m = "unit")
     ∧ (dict_get "taxable" body = None → Medicine.taxable m = true)
     ∧ (dict_get "tax_rate" body = None → Medicine.tax_rate m = 0%Q)
     ∧ (dict_get "stock" body = None → dict_get "reorder_level" body = None →
        is_low_stock m))
  ∧ (dict_get "name" body = None ∨ dict_get "price" body = None →
     ∃ loc msg content,
       route environ (POST_medicines (VDict body)) db = (Rejected loc msg, db)
       ∧ app environ (POST_medicines (VDict body)) db = (Response 422 content, db)).
Proof.
  split.
  - intros m Hm. unfold Medicine.validate, model, Medicine.fields in Hm.
    split_fields Hm. simpl.
    split; [|split; [|split; [|split; [|split; [|split; [|split]]]]]].
    + field_of "unit" ltac:(fun E =>
        apply field_valid in E as [[_ [= <-]]|(v & _ & Hl%Literal_sound & _)]).
      * by apply (bool_decide_eq_true_1 ("unit" ∈ Medicine.units)).
      * apply Hl.
    + field_of "name" ltac:(fun E => by apply field_str in E as [?|[_ ?]]).
    + intros Hn.
      field_of "stock" ltac:(fun E => by apply (field_default _ _ _ _ _ _ Hn) in E).
    + intros Hn.
      field_of "reorder_level" ltac:(fun E =>
        by apply (field_default _ _ _ _ _ _ Hn) in E).
    + intros Hn.
      field_of "unit" ltac:(fun E => by apply (field_default _ _ _ _ _ _ Hn) in E).
    + intros Hn.
      field_of "taxable" ltac:(fun E => by apply (field_default _ _ _ _ _ _ Hn) in E).
    + intros Hn.
      field_of "tax_rate" ltac:(fun E => by apply (field_default _ _ _ _ _ _ Hn) in E).
    + intros Hs Hl. unfold is_low_stock. simpl.
      field_of "stock" ltac:(fun E => apply (field_default _ _ _ _ _ _ Hs) in E as ->).
      field_of "reorder_level" ltac:(fun E =>
        apply (field_default _ _ _ _ _ _ Hl) in E as ->).
      lia.
  - intros Hmissing. unfold app, route, with_body, Medicine.validate, model.
    destruct (Medicine.fields body) as [m|loc msg] eqn:Hm; [|by eexists _, _, _].
    exfalso. unfold Medicine.fields in Hm. split_fields Hm.
    destruct Hmissing as [Hn|Hn].
    + field_of "name" ltac:(fun E => by rewrite (field_missing _ _ _ _ Hn) in E).
    + field_of "price" ltac:(fun E => by rewrite (field_missing _ _ _ _ Hn) in E).
Qed.

(** The statement at a body that gives a name and a price, and at a body
    without a price. *)
Lemma medicine_defaults_witness :
  is_low_stock abc
  ∧ ∃ loc msg content,
      @route strict bare no_environ (POST_medicines (VDict [("name", VStr "abc")]))
             (Some empty_db)
      = (Rejected loc msg, Some empty_db)
      ∧ @app strict bare no_environ (POST_medicines (VDict [("name", VStr "abc")]))
             (Some empty_db)
        = (Response 422 content, Some empty_db).
Proof.
  split.
  - refine (proj2 (proj2 (proj2 (proj2 (proj2 (proj2 (proj2
              (proj1 (@medicine_defaults strict bare no_environ
                        [("name", VStr "abc"); ("price", VInt 1)] (Some empty_db))
                     abc eq_refl))))))) eq_refl eq_refl).
  - apply (proj2 (@medicine_defaults strict bare no_environ
                    [("name", VStr "abc")] (Some empty_db))).
    by right.
Defined.

Section ExtraKeys.
Context `{Pydantic}.

Lemma dict_get_set_ne k n v (b : dict) :
  k ≠ n → dict_get n (dict_set k v b) = dict_get n b.
Proof.
  intros Hne. induction b as [|[k' v'] b IH]; simpl.
  - by destruct (String.eqb_spec k n).
  - destruct (String.eqb_spec k' k) as [->|Hk]; simpl.
    + by destruct (String.eqb_spec k n).
    + by rewrite IH.
Qed.

Lemma dict_get_set_eq k v (b : dict) : dict_get k (dict_set k v b) = Some v.
Proof.
  induction b as [|[k' v'] b IH]; simpl.
  - by rewrite String.eqb_refl.
  - destruct (String.eqb_spec k' k) as [->|Hk]; simpl.
    + by rewrite String.eqb_refl.
    + by destruct (String.eqb_spec k' k).
Qed.

Lemma field_ext {A} b b' n (type : value → option A) d c :
  dict_get n b = dict_get n b' → field b n type d c = field b' n type d c.
Proof. intros Hn. unfold field. by rewrite Hn. Qed.

End ExtraKeys.

(** Replaces the fields read from [b] by the fields read from [b'], the two
    bodies agreeing on the names of the list [names]. *)
Ltac same_fields b b' names Hsame :=
  repeat match goal with
         | |- context [field b ?n ?t ?d ?c] =>
             rewrite (field_ext b b' n t d c)
               by (apply Hsame; by apply (bool_decide_eq_true_1 (n ∈ names)))
         end.

(** X8.  Validation reads a body through the fields of its model and
    nothing else: two bodies that agree on these fields get the same
    verdict and, when accepted, the same instance.  So a key that is no
    field of the model is ignored, whatever its value, and never ends up in
    the store. *)
Theorem validation_reads_fields `{Pydantic} (body body' : dict) :
  ((∀ n, n ∈ Medicine_names → dict_get n body = dict_get n body') →
   Medicine.validate (VDict body) = Medicine.validate (VDict body'))
  ∧ ((∀ n, n ∈ Prescription_names → dict_get n body = dict_get n body') →
     Prescription.validate (VDict body) = Prescription.validate (VDict body'))
  ∧ ((∀ n, n ∈ Staff_names → dict_get n body = dict_get n body') →
     Staff.validate (VDict body) = Staff.validate (VDict body'))
  ∧ ((∀ n, n ∈ Supplier_names → dict_get n body = dict_get n body') →
     Supplier.validate (VDict body) = Supplier.validate (VDict body'))
  ∧ (∀ k v,
       (k ∉ Medicine_names →
        Medicine.validate (VDict (dict_set k v body)) = Medicine.validate (VDict body))
       ∧ (k ∉ Prescription_names →
          Prescription.validate (VDict (dict_set k v body))
          = Prescription.validate (VDict body))
       ∧ (k ∉ Staff_names →
          Staff.validate (VDict (dict_set k v body)) = Staff.validate (VDict body))
       ∧ (k ∉ Supplier_names →
          Supplier.validate (VDict (dict_set k v body))
          = Supplier.validate (VDict body))).
Proof.
  assert (∀ b b',
            (∀ n, n ∈ Medicine_names → dict_get n b = dict_get n b') →
            Medicine.validate (VDict b) = Medicine.validate (VDict b')) as Hmedicine.
  { intros b b' Hsame. unfold Medicine.validate, model, Medicine.fields.
    same_fields b b' Medicine_names Hsame. done. }
  assert (∀ b b',
            (∀ n, n ∈ Prescription_names → dict_get n b = dict_get n b') →
            Prescription.validate (VDict b) = Prescription.validate (VDict b'))
    as Hprescription.
  { intros b b' Hsame. unfold Prescription.validate, model, Prescription.fields.
    same_fields b b' Prescription_names Hsame. done. }
  assert (∀ b b',
            (∀ n, n ∈ Staff_names → dict_get n b = dict_get n b') →
            Staff.validate (VDict b) = Staff.validate (VDict b')) as Hstaff.
  { intros b b' Hsame. unfold Staff.validate, model, Staff.fields.
    same_fields b b' Staff_names Hsame. done. }
  assert (∀ b b',
            (∀ n, n ∈ Supplier_names → dict_get n b = dict_get n b') →
            Supplier.validate (VDict b) = Supplier.validate (VDict b')) as Hsupplier.
  { intros b b' Hsame. unfold Supplier.validate, model, Supplier.fields.
    same_fields b b' Supplier_names Hsame. done. }
  split; [apply Hmedicine|]. split; [apply Hprescription|].
  split; [apply Hstaff|]. split; [apply Hsupplier|].
  intros k v.
  assert (∀ names : list string, k ∉ names →
            ∀ n, n ∈ names → dict_get n (dict_set k v body) = dict_get n body)
    as Hset.
  { intros names Hk n Hn. apply dict_get_set_ne. by intros ->. }
  split; [intros Hk; apply Hmedicine, (Hset _ Hk)|].
  split; [intros Hk; apply Hprescription, (Hset _ Hk)|].
  split; [intros Hk; apply Hstaff, (Hset _ Hk)|].
  intros Hk; apply Hsupplier, (Hset _ Hk).
Qed.

(** The statement at a staff body with a key [is_admin], which is no field
    of the model. *)
Lemma validation_reads_fields_witness :
  @Staff.validate strict
     (VDict (dict_set "is_admin" (VBool true)
               [("name", VStr "Ada"); ("email", VStr "ada@x")]))
  = @Staff.validate strict (VDict [("name", VStr "Ada"); ("email", VStr "ada@x")]).
Proof.
  apply (proj1 (proj2 (proj2
           (proj2 (proj2 (proj2 (proj2
              (@validation_reads_fields strict
                 [("name", VStr "Ada"); ("email", VStr "ada@x")] []))))
              "is_admin" (VBool true))))).
  apply (bool_decide_eq_false_1 ("is_admin" ∈ Staff_names)). by vm_compute.
Defined.

(* ===================================================================== *)
(** * The diagnostics endpoint: what it reports *)
(* ===================================================================== *)

(** The environment gives the variable a value that is not empty. *)
Definition configured (environ : gmap string string) (name : string) : Prop :=
  ∃ c s, environ !! name = Some (String c s).

(** X9.  The response of [test_database] always has the same six keys, in
    the same order, and says that the backend runs.  Its two configuration
    flags tell whether the environment gives [DATABASE_URL] and
    [DATABASE_NAME] a non-empty value, whatever the state of the
    connection.  It lists at most ten collections, the first ten the store
    names.  The message of the outer [except] clause, "Error: ...", is
    never reported: nothing in the outer [try] block raises. *)
Theorem test_database_report environ (db : db_state) :
  ∃ response,
    test_database environ db = Return (VDict response)
    ∧ response.*1 = ["backend"; "database"; "database_url"; "database_name";
                     "connection_status"; "collections"]
    ∧ dict_get "backend" response = Some (VStr "✅ Running")
    ∧ (dict_get "database_url" response = Some (VStr "✅ Set")
       ↔ configured environ "DATABASE_URL")
    ∧ (dict_get "database_url" response = Some (VStr "❌ Not Set")
       ↔ ¬ configured environ "DATABASE_URL")
    ∧ (dict_get "database_name" response = Some (VStr "✅ Set")
       ↔ configured environ "DATABASE_NAME")
    ∧ (dict_get "database_name" response = Some (VStr "❌ Not Set")
       ↔ ¬ configured environ "DATABASE_NAME")
    ∧ (∃ names, dict_get "collections" response = Some (VList (VStr <$> names))
                ∧ length names ≤ 10
                ∧ ∀ d every, db = Some d → list_collection_names d = Return every →
                    names = take 10 every)
    ∧ (∀ text, dict_get "database" response ≠ Some (VStr ("❌ Error: " +:+ text))).
Proof.
  assert (∀ name,
            (is_set environ name = VStr "✅ Set" ↔ configured environ name)
            ∧ (is_set environ name = VStr "❌ Not Set" ↔ ¬ configured environ name))
    as Hflag.
  { intros name. unfold is_set, configured.
    destruct (environ !! name) as [[|c s]|]; simpl; (split; split); try done;
      try (by intros (? & ? & ?));
      try (intros _; by intros (? & ? & ?));
      try (intros _; by eexists _, _);
      intros Hno; destruct Hno; by eexists _, _. }
  assert (∀ v w : value, Some v = Some w ↔ v = w) as Hsome
    by (intros v w; split; congruence).
  unfold test_database, return_response, try_stmt, seq_stmt, assign.
  destruct db as [d|]; simpl.
  - destruct (list_collection_names d) as [every|e] eqn:Hprobe; simpl;
      (eexists; split; [done|]); simpl; rewrite !Hsome;
      (split; [done|]); (split; [done|]);
      (split; [apply Hflag|]); (split; [apply Hflag|]);
      (split; [apply Hflag|]); (split; [apply Hflag|]); split; try done.
    + exists (take 10 every). split; [done|]. split; [rewrite length_take; lia|].
      intros d' every' [= <-] Hevery. rewrite Hprobe in Hevery.
      by injection Hevery as <-.
    + exists []. split; [done|]. split; [simpl; lia|].
      intros d' every' [= <-] Hevery. by rewrite Hprobe in Hevery.
  - eexists; split; [done|]; simpl; rewrite !Hsome.
    split; [done|]. split; [done|].
    split; [apply Hflag|]. split; [apply Hflag|].
    split; [apply Hflag|]. split; [apply Hflag|]. split; [|done].
    exists []. split; [done|]. split; [simpl; lia|done].
Qed.

(* ===================================================================== *)
(** * A POST and the list that follows *)
(* ===================================================================== *)

(** The request is answered on the store [d'] as it is on the store [d]. *)
Definition same_answer `{Pydantic} `{Store} (environ : gmap string string)
    (d d' : database) (r : request) : Prop :=
  (route environ r (Some d')).1 = (route environ r (Some d)).1.

Section RoundTripFacts.
Context `{Pydantic} `{Store}.

Lemma inserted_holds {A} `{BaseModel A} d d' collection_name (payload : A) :
  inserted d d' collection_name payload →
  holds d' collection_name
        (documents d collection_name ++ [stored (fresh_id (next_id d), payload)]).
Proof. by intros (? & ? & _). Qed.

(** A read of a collection does not depend on the other collections. *)
Lemma read_frame collection_name filt limit d d' :
  failure d = None → failure d' = None →
  documents d' collection_name = documents d collection_name →
  (call (documents_value (get_documents collection_name filt limit)) (Some d')).1
  = (call (documents_value (get_documents collection_name filt limit)) (Some d)).1.
Proof.
  intros Hd Hd' Hdocs.
  unfold call, documents_value, get_documents, mbind, io_bind.
  rewrite Hd, Hd', Hdocs. by destruct (compile_query (VDict filt)).
Qed.

(** A POST route with a valid body against a reachable store. *)
Lemma post_route {A} `{BaseModel A} (validate : value → validated A) body
    collection_name (payload : A) d :
  validate body = Valid payload →
  failure d = None →
  ∃ d', with_body validate body
          (λ payload, new_id ← create_document collection_name payload;
                      mret (VDict [("id", VStr new_id)])) (Some d)
        = (created (fresh_id (next_id d)), Some d')
        ∧ inserted d d' collection_name payload.
Proof.
  intros Hp Hd.
  destruct (create_document_inserted collection_name payload d Hd)
    as (d' & Hc & Hins).
  exists d'. split; [|done].
  unfold with_body, mbind, io_bind. by rewrite Hp, Hc.
Qed.

End RoundTripFacts.

(** X11.  Each POST route stores into the collection that the list route
    of the same name reads, and into no other.  A POST with a valid body
    against a reachable store answers the new identifier; the unfiltered
    list that follows answers, up to its limit, the documents the collection
    held and then the new one, made of that identifier and of the validated
    fields; and the lists of the three other collections answer what they
    answered before. *)
Theorem post_then_list `{Pydantic} `{Store} environ d limit :
  failure d = None →
  (∀ body m, Medicine.validate (VDict body) = Valid m →
     ∃ d', route environ (POST_medicines (VDict body)) (Some d)
           = (created (fresh_id (next_id d)), Some d')
           ∧ route environ (GET_medicines None None limit) (Some d')
             = (listing (take (limit_of limit)
                           (documents d "medicine"
                            ++ [stored (fresh_id (next_id d), m)])), Some d')
           ∧ (∀ status l, same_answer environ d d' (GET_prescriptions status l))
           ∧ (∀ role active l, same_answer environ d d' (GET_staff role active l))
           ∧ (∀ q l, same_answer environ d d' (GET_suppliers q l)))
  ∧ (∀ body p, Prescription.validate (VDict body) = Valid p →
       ∃ d', route environ (POST_prescriptions (VDict body)) (Some d)
             = (created (fresh_id (next_id d)), Some d')
             ∧ route environ (GET_prescriptions None limit) (Some d')
               = (listing (take (limit_of limit)
                             (documents d "prescription"
                              ++ [stored (fresh_id (next_id d), p)])), Some d')
             ∧ (∀ q low l, same_answer environ d d' (GET_medicines q low l))
             ∧ (∀ role active l, same_answer environ d d' (GET_staff role active l))
             ∧ (∀ q l, same_answer environ d d' (GET_suppliers q l)))
  ∧ (∀ body s, Staff.validate (VDict body) = Valid s →
       ∃ d', route environ (POST_staff (VDict body)) (Some d)
             = (created (fresh_id (next_id d)), Some d')
             ∧ route environ (GET_staff None None limit) (Some d')
               = (listing (take (limit_of limit)
                             (documents d "staff"
                              ++ [stored (fresh_id (next_id d), s)])), Some d')
             ∧ (∀ q low l, same_answer environ d d' (GET_medicines q low l))
             ∧ (∀ status l, same_answer environ d d' (GET_prescriptions status l))
             ∧ (∀ q l, same_answer environ d d' (GET_suppliers q l)))
  ∧ (∀ body s, Supplier.validate (VDict body) = Valid s →
       ∃ d', route environ (POST_suppliers (VDict body)) (Some d)
             = (created (fresh_id (next_id d)), Some d')
             ∧ route environ (GET_suppliers None limit) (Some d')
               = (listing (take (limit_of limit)
                             (documents d "supplier"
                              ++ [stored (fresh_id (next_id d), s)])), Some d')
             ∧ (∀ q low l, same_answer environ d d' (GET_medicines q low l))
             ∧ (∀ status l, same_answer environ d d' (GET_prescriptions status l))
             ∧ (∀ role active l, same_answer environ d d' (GET_staff role active l))).
Proof.
  intros Hd.
  assert (∀ d' collection_name other filt l,
            failure d' = None →
            (∀ o, o ≠ collection_name → documents d' o = documents d o) →
            other ≠ collection_name →
            (call (documents_value (get_documents other filt l)) (Some d')).1
            = (call (documents_value (get_documents other filt l)) (Some d)).1)
    as Hframe.
  { intros d' c other filt l Hd' Hothers Hne. apply read_frame; auto. }
  split; [|split; [|split]]; intros body payload Hvalid.
  - destruct (post_route Medicine.validate (VDict body) "medicine" payload d Hvalid Hd)
      as (d' & Hpost & Hins).
    pose proof Hins as (Hd' & _ & Hothers).
    exists d'. split; [exact Hpost|]. split.
    + apply (read_route_all "medicine" limit d'), (inserted_holds _ _ _ _ Hins).
    + split; [|split]; intros; apply (Hframe d' "medicine"); done.
  - destruct (post_route Prescription.validate (VDict body) "prescription" payload d
                Hvalid Hd) as (d' & Hpost & Hins).
    pose proof Hins as (Hd' & _ & Hothers).
    exists d'. split; [exact Hpost|]. split.
    + apply (read_route_all "prescription" limit d'), (inserted_holds _ _ _ _ Hins).
    + split; [|split]; intros; apply (Hframe d' "prescription"); done.
  - destruct (post_route Staff.validate (VDict body) "staff" payload d Hvalid Hd)
      as (d' & Hpost & Hins).
    pose proof Hins as (Hd' & _ & Hothers).
    exists d'. split; [exact Hpost|]. split.
    + apply (read_route_all "staff" limit d'), (inserted_holds _ _ _ _ Hins).
    + split; [|split]; intros; apply (Hframe d' "staff"); done.
  - destruct (post_route Supplier.validate (VDict body) "supplier" payload d Hvalid Hd)
      as (d' & Hpost & Hins).
    pose proof Hins as (Hd' & _ & Hothers).
    exists d'. split; [exact Hpost|]. split.
    + apply (read_route_all "supplier" limit d'), (inserted_holds _ _ _ _ Hins).
    + split; [|split]; intros; apply (Hframe d' "supplier"); done.
Qed.

(** The statement at the empty store: a medicine is posted and listed. *)
Lemma post_then_list_witness :
  ∃ d',
    @route strict bare no_environ (POST_medicines aspirin_body) (Some empty_db)
    = (created "0", Some d')
    ∧ @route strict bare no_environ (GET_medicines None None None) (Some d')
      = (listing [stored ("0", aspirin)], Some d').
Proof.
  destruct (proj1 (@post_then_list strict bare no_environ empty_db None eq_refl)
                  [("name", VStr "Aspirin"); ("sku", VStr "SK-1"); ("price", VInt 1);
                   ("stock", VInt 3)] aspirin eq_refl)
    as (d' & Hpost & Hlist & _).
  exists d'. split; [exact Hpost|exact Hlist].
Defined.
